(** * Clock-domain controller of the RPi Cirrus Logic audio card machine driver

    Shallow embedding of [sound/soc/bcm/rpi-cirrus.c]: the sample-rate
    controls, the FLL helpers, the DAPM routing event, the two bias-level
    callbacks and the [hw_params] / [hw_free] stream callbacks.

    The two codecs are external: every call the driver makes into them is
    answered by an arbitrary deterministic device model [codec_call], which
    returns the [int] status of the call and the next device state.  The
    driver logs each call together with its status, so that statements
    about "which hardware calls are issued, in which order" are statements
    about the log.

    [mutex_lock] / [mutex_unlock], [dev_dbg] / [dev_err] and
    [usleep_range] have no effect on the modelled state and are left out:
    every entry point runs to completion as one sequential step. *)

From Stdlib Require Import ZArith List Bool Lia.
Import ListNotations.
Local Open Scope Z_scope.

(** ** C integers *)

(** [unsigned int] is 32 bits wide; arithmetic on it wraps. *)
Definition to_uint (x : Z) : Z := x mod 2 ^ 32.

(** Conversion to [int] (two's complement, as gcc does it). *)
Definition to_int (x : Z) : Z :=
  let u := x mod 2 ^ 32 in
  if u <? 2 ^ 31 then u else u - 2 ^ 32.

(** The truth value of a C scalar used as a condition. *)
Definition truthy (x : Z) : bool := negb (x =? 0).

(** ** Constants of the driver *)

Definition WM8804_CLKOUT_HZ : Z := 12000000.
Definition RPI_CIRRUS_DEFAULT_RATE : Z := 44100.
Definition WM5102_MAX_SYSCLK_1 : Z := 49152000. (* max sysclk for 4K family *)
Definition WM5102_MAX_SYSCLK_2 : Z := 45158400. (* max sysclk for 11.025K family *)

Definition calc_sysclk (rate : Z) : Z :=
  if truthy (rate mod 4000) then WM5102_MAX_SYSCLK_2 else WM5102_MAX_SYSCLK_1.

(** ** Driver data *)

Record rpi_cirrus_priv : Type := mk_priv {
  card_rate : Z;            (* unsigned int *)
  sync_path_enable : Z;     (* int *)
  fll1_freq : Z;            (* int; negative means RefClock in spdif rx case *)
  params_set : Z;           (* unsigned int; track hw params/free for substreams *)
  min_rate_idx : Z;         (* unsigned int *)
  max_rate_idx : Z;         (* unsigned int *)
  iec958_status : list Z    (* unsigned char [4] *)
}.

Definition set_card_rate (v : Z) (p : rpi_cirrus_priv) : rpi_cirrus_priv :=
  mk_priv v (sync_path_enable p) (fll1_freq p) (params_set p)
          (min_rate_idx p) (max_rate_idx p) (iec958_status p).

Definition set_sync_path_enable (v : Z) (p : rpi_cirrus_priv) : rpi_cirrus_priv :=
  mk_priv (card_rate p) v (fll1_freq p) (params_set p)
          (min_rate_idx p) (max_rate_idx p) (iec958_status p).

Definition set_fll1_freq (v : Z) (p : rpi_cirrus_priv) : rpi_cirrus_priv :=
  mk_priv (card_rate p) (sync_path_enable p) v (params_set p)
          (min_rate_idx p) (max_rate_idx p) (iec958_status p).

Definition set_params_set (v : Z) (p : rpi_cirrus_priv) : rpi_cirrus_priv :=
  mk_priv (card_rate p) (sync_path_enable p) (fll1_freq p) v
          (min_rate_idx p) (max_rate_idx p) (iec958_status p).

Definition set_min_rate_idx (v : Z) (p : rpi_cirrus_priv) : rpi_cirrus_priv :=
  mk_priv (card_rate p) (sync_path_enable p) (fll1_freq p) (params_set p)
          v (max_rate_idx p) (iec958_status p).

Definition set_max_rate_idx (v : Z) (p : rpi_cirrus_priv) : rpi_cirrus_priv :=
  mk_priv (card_rate p) (sync_path_enable p) (fll1_freq p) (params_set p)
          (min_rate_idx p) v (iec958_status p).

(** [struct snd_soc_pcm_stream], the fields [hw_params] writes. *)
Record snd_soc_pcm_stream : Type := mk_pcm_stream {
  rate_min : Z;
  rate_max : Z
}.

(** [rpi_cirrus_probe]: [devm_kzalloc] zeroes the structure, then
    [min_rate_idx = 1] and [card_rate = RPI_CIRRUS_DEFAULT_RATE]. *)
Definition rpi_cirrus_probe_priv : rpi_cirrus_priv :=
  set_card_rate RPI_CIRRUS_DEFAULT_RATE
    (set_min_rate_idx 1 (mk_priv 0 0 0 0 0 0 [0; 0; 0; 0])).

(** ** Rate tables *)

Record rate_info : Type := mk_rate_info { value : Z }.

Definition min_rates : list rate_info :=
  [mk_rate_info 0; mk_rate_info 32000; mk_rate_info 44100].
Definition max_rates : list rate_info :=
  [mk_rate_info 0; mk_rate_info 48000; mk_rate_info 96000].

Definition NUM_MIN_RATES : Z := Z.of_nat (length min_rates).
Definition NUM_MAX_RATES : Z := Z.of_nat (length max_rates).

(** [rpi_cirrus_min_rate_info] / [rpi_cirrus_max_rate_info]: the item whose
    name is queried is clamped to the last entry of the table. *)
Definition rpi_cirrus_min_rate_info (item : Z) : Z :=
  if NUM_MIN_RATES <=? item then NUM_MIN_RATES - 1 else item.
Definition rpi_cirrus_max_rate_info (item : Z) : Z :=
  if NUM_MAX_RATES <=? item then NUM_MAX_RATES - 1 else item.

(** [min_rates[idx].value] as [rpi_cirrus_startup] reads it; [None] stands
    for an access past the end of the array. *)
Definition min_rate_at (idx : Z) : option Z :=
  option_map value (nth_error min_rates (Z.to_nat idx)).
Definition max_rate_at (idx : Z) : option Z :=
  option_map value (nth_error max_rates (Z.to_nat idx)).

(** ** Calls into the codecs *)

Inductive arizona_fll : Type := WM5102_FLL1 | WM5102_FLL1_REFCLK.

Inductive arizona_clk_src : Type :=
  | ARIZONA_FLL_SRC_NONE
  | ARIZONA_CLK_SRC_MCLK1
  | ARIZONA_CLK_SRC_AIF2BCLK
  | ARIZONA_CLK_SRC_FLL1.

Inductive soc_dai : Type := bcm_i2s_dai | wm5102_codec_dai | wm8804_dai.

Inductive wm8804_clk : Type := WM8804_TX_CLKSRC_PLL | WM8804_CLKOUT_SRC_OSCCLK.

Inductive hw_call : Type :=
  (* snd_soc_component_set_pll(wm5102_component, pll_id, source, freq_in, freq_out) *)
  | snd_soc_component_set_pll
      (pll_id : arizona_fll) (source : arizona_clk_src) (freq_in freq_out : Z)
  (* snd_soc_component_set_sysclk(wm5102_component, ARIZONA_CLK_SYSCLK,
                                  source, freq, SND_SOC_CLOCK_IN) *)
  | snd_soc_component_set_sysclk (source : arizona_clk_src) (freq : Z)
  | snd_soc_dai_set_bclk_ratio (dai : soc_dai) (ratio : Z)
  | snd_soc_dai_set_tdm_slot (dai : soc_dai) (tx_mask rx_mask slots slot_width : Z)
  (* snd_soc_dai_set_pll(dai, pll_id, source, freq_in, freq_out) *)
  | snd_soc_dai_set_pll (dai : soc_dai) (pll_id source freq_in freq_out : Z)
  (* snd_soc_dai_set_sysclk(dai, clk_id, freq, dir) *)
  | snd_soc_dai_set_sysclk (dai : soc_dai) (clk_id : wm8804_clk) (freq dir : Z).

(** ** Framework types *)

Inductive dapm_event : Type :=
  | SND_SOC_DAPM_POST_PMU
  | SND_SOC_DAPM_POST_PMD
  | SND_SOC_DAPM_OTHER.

Inductive snd_soc_bias_level : Type :=
  | SND_SOC_BIAS_OFF
  | SND_SOC_BIAS_STANDBY
  | SND_SOC_BIAS_PREPARE
  | SND_SOC_BIAS_ON.

Inductive device : Type := wm5102_codec_dev | wm8804_codec_dev | card_dev.

Definition device_eqb (a b : device) : bool :=
  match a, b with
  | wm5102_codec_dev, wm5102_codec_dev => true
  | wm8804_codec_dev, wm8804_codec_dev => true
  | card_dev, card_dev => true
  | _, _ => false
  end.

Record snd_soc_dapm_context : Type := mk_dapm {
  dev : device;
  bias_level : snd_soc_bias_level
}.

(** [substream->stream]. *)
Inductive pcm_stream : Type :=
  | SNDRV_PCM_STREAM_PLAYBACK
  | SNDRV_PCM_STREAM_CAPTURE.

Definition stream (substream : pcm_stream) : Z :=
  match substream with
  | SNDRV_PCM_STREAM_PLAYBACK => 0
  | SNDRV_PCM_STREAM_CAPTURE => 1
  end.

(** What [hw_params] reads from [struct snd_pcm_hw_params]:
    [snd_pcm_format_width(params_format(params))] and [params_rate(params)],
    both held in [unsigned int] variables. *)
Record snd_pcm_hw_params : Type := mk_hw_params {
  format_width : Z;
  params_rate : Z
}.

(** ** Driver actions

    An action of the driver reads and writes a world [W] (driver data,
    device state, call log) and returns a value. *)

Definition drv (W A : Type) : Type := W -> A * W.

Definition pure {W A : Type} (a : A) : drv W A := fun w => (a, w).

Definition bind {W A B : Type} (c : drv W A) (k : A -> drv W B) : drv W B :=
  fun w => let (a, w') := c w in k a w'.

Declare Scope drv_scope.
Delimit Scope drv_scope with drv.
Notation "x <- c ;; k" := (bind c (fun x => k))
  (at level 61, c at next level, right associativity) : drv_scope.
Notation "c ;; k" := (bind c (fun _ => k))
  (at level 61, right associativity) : drv_scope.

(** ** The driver over an arbitrary device model *)

Section Driver.

Context {codec_state : Type}.
Variable codec_call : codec_state -> hw_call -> Z * codec_state.

Record world : Type := mk_world {
  priv : rpi_cirrus_priv;
  rpi_cirrus_dai_link2_params : snd_soc_pcm_stream;
  codec : codec_state;
  log : list (hw_call * Z)
}.

Definition get_priv : drv world rpi_cirrus_priv := fun w => (priv w, w).

Definition update_priv (f : rpi_cirrus_priv -> rpi_cirrus_priv) : drv world unit :=
  fun w => (tt, mk_world (f (priv w)) (rpi_cirrus_dai_link2_params w)
                         (codec w) (log w)).

Definition put_dai_link2_params (s : snd_soc_pcm_stream) : drv world unit :=
  fun w => (tt, mk_world (priv w) s (codec w) (log w)).

(** One call into a codec: the device answers, the call is logged. *)
Definition hw (c : hw_call) : drv world Z :=
  fun w =>
    let (r, h) := codec_call (codec w) c in
    (r, mk_world (priv w) (rpi_cirrus_dai_link2_params w) h (log w ++ [(c, r)])).

Local Open Scope drv_scope.

(** *** Rate controls *)

Definition rpi_cirrus_min_rate_get : drv world Z :=
  p <- get_priv ;; pure (min_rate_idx p).

Definition rpi_cirrus_min_rate_put (item0 : Z) : drv world Z :=
  p <- get_priv ;;
  if negb (min_rate_idx p =? item0) then
    update_priv (set_min_rate_idx item0) ;;
    pure 1
  else pure 0.

Definition rpi_cirrus_max_rate_get : drv world Z :=
  p <- get_priv ;; pure (max_rate_idx p).

Definition rpi_cirrus_max_rate_put (item0 : Z) : drv world Z :=
  p <- get_priv ;;
  if negb (max_rate_idx p =? item0) then
    update_priv (set_max_rate_idx item0) ;;
    pure 1
  else pure 0.

(** *** FLL helpers *)

Definition rpi_cirrus_clear_flls : drv world Z :=
  ret1 <- hw (snd_soc_component_set_pll WM5102_FLL1 ARIZONA_FLL_SRC_NONE 0 0) ;;
  ret2 <- hw (snd_soc_component_set_pll WM5102_FLL1_REFCLK ARIZONA_FLL_SRC_NONE 0 0) ;;
  if truthy ret1 then pure ret1
  else if truthy ret2 then pure ret2
  else pure 0.

Definition rpi_cirrus_set_fll (clk_freq : Z) : drv world Z :=
  hw (snd_soc_component_set_pll WM5102_FLL1 ARIZONA_CLK_SRC_MCLK1
        WM8804_CLKOUT_HZ clk_freq).

Definition rpi_cirrus_set_fll_refclk (clk_freq aif2_freq : Z) : drv world Z :=
  ret <- hw (snd_soc_component_set_pll WM5102_FLL1_REFCLK ARIZONA_CLK_SRC_MCLK1
               WM8804_CLKOUT_HZ clk_freq) ;;
  if truthy ret then pure ret
  else
    hw (snd_soc_component_set_pll WM5102_FLL1 ARIZONA_CLK_SRC_AIF2BCLK
          aif2_freq clk_freq).

(** *** DAPM routing event of the "dummy SPDIFRX" widget *)

Definition rpi_cirrus_spdif_rx_enable_event (event : dapm_event) : drv world Z :=
  match event with
  | SND_SOC_DAPM_POST_PMU =>
      p <- get_priv ;;
      let clk_freq := calc_sysclk (card_rate p) in
      let aif2_freq := to_uint (64 * card_rate p) in
      ret <- rpi_cirrus_clear_flls ;;
      if truthy ret then pure ret
      else
        ret <- rpi_cirrus_set_fll_refclk clk_freq aif2_freq ;;
        if truthy ret then pure ret
        else
          (* set to negative to indicate we're doing spdif rx *)
          update_priv (set_fll1_freq (to_int (- clk_freq))) ;;
          update_priv (set_sync_path_enable 1) ;;
          pure ret
  | SND_SOC_DAPM_POST_PMD =>
      update_priv (set_sync_path_enable 0) ;;
      pure 0
  | SND_SOC_DAPM_OTHER => pure 0
  end.

(** *** Bias level callbacks *)

Definition rpi_cirrus_set_bias_level
    (dapm : snd_soc_dapm_context) (level : snd_soc_bias_level) : drv world Z :=
  if negb (device_eqb (dev dapm) wm5102_codec_dev) then pure 0
  else
    match level with
    | SND_SOC_BIAS_PREPARE =>
        match bias_level dapm with
        | SND_SOC_BIAS_ON => pure 0
        | _ =>
            p <- get_priv ;;
            if negb (truthy (sync_path_enable p)) then
              let clk_freq := calc_sysclk (card_rate p) in
              ret <- rpi_cirrus_set_fll clk_freq ;;
              if truthy ret then pure ret
              else
                update_priv (set_fll1_freq (to_int clk_freq)) ;;
                pure ret
            else pure 0
        end
    | _ => pure 0
    end.

Definition rpi_cirrus_set_bias_level_post
    (dapm : snd_soc_dapm_context) (level : snd_soc_bias_level) : drv world Z :=
  if negb (device_eqb (dev dapm) wm5102_codec_dev) then pure 0
  else
    match level with
    | SND_SOC_BIAS_STANDBY =>
        ret <- rpi_cirrus_clear_flls ;;
        if truthy ret then pure 0
        else
          update_priv (set_fll1_freq 0) ;;
          pure 0
    | _ => pure 0
    end.

(** *** Stream callbacks *)

Definition rpi_cirrus_set_wm8804_pll (rate : Z) : drv world Z :=
  (* use 256fs *)
  let clk_freq := to_uint (rate * 256) in
  ret <- hw (snd_soc_dai_set_pll wm8804_dai 0 0 WM8804_CLKOUT_HZ clk_freq) ;;
  if truthy ret then pure ret
  else
    (* Set MCLK as PLL Output *)
    hw (snd_soc_dai_set_sysclk wm8804_dai WM8804_TX_CLKSRC_PLL clk_freq 0).

(** The tail of [rpi_cirrus_hw_params] from the FLL test on; [ret] is the
    status left by the preceding [snd_soc_component_set_sysclk], which is
    what the function returns from here on. *)
Definition rpi_cirrus_hw_params_fll
    (substream : pcm_stream) (rate clk_freq ret : Z) : drv world Z :=
  let finish : drv world Z :=
    update_priv (set_card_rate rate) ;;
    put_dai_link2_params (mk_pcm_stream rate rate) ;;
    p <- get_priv ;;
    update_priv
         (set_params_set (Z.lor (params_set p) (Z.shiftl 1 (stream substream)))) ;;
    pure ret in
  p <- get_priv ;;
  if (0 <? fll1_freq p) && negb (to_uint (fll1_freq p) =? clk_freq) then
    r <- rpi_cirrus_clear_flls ;;
    if truthy r then pure ret
    else
      r <- rpi_cirrus_set_fll clk_freq ;;
      if truthy r then pure ret
      else
        update_priv (set_fll1_freq (to_int clk_freq)) ;;
        finish
  else finish.

Definition rpi_cirrus_hw_params
    (substream : pcm_stream) (params : snd_pcm_hw_params) : drv world Z :=
  let width := format_width params in
  let rate := params_rate params in
  let clk_freq := calc_sysclk rate in
  ret <- hw (snd_soc_dai_set_bclk_ratio bcm_i2s_dai (to_uint (2 * width))) ;;
  if truthy ret then pure ret
  else
    ret <- hw (snd_soc_dai_set_tdm_slot wm5102_codec_dai 3 3 2 (to_int width)) ;;
    if truthy ret then pure ret
    else
      (* WM8804 supports sample rates from 32k only; below that [ret]
         keeps the 0 of the call before *)
      ret <- (if 32000 <=? rate then rpi_cirrus_set_wm8804_pll rate else pure ret) ;;
      if truthy ret then pure ret
      else
        ret <- hw (snd_soc_component_set_sysclk ARIZONA_CLK_SRC_FLL1 clk_freq) ;;
        if truthy ret then pure ret
        else rpi_cirrus_hw_params_fll substream rate clk_freq ret.

Definition rpi_cirrus_hw_free (substream : pcm_stream) : drv world Z :=
  p <- get_priv ;;
  let old_params_set := params_set p in
  update_priv
       (set_params_set
          (Z.land (params_set p) (to_uint (Z.lnot (Z.shiftl 1 (stream substream)))))) ;;
  p <- get_priv ;;
  (* disable sysclk if this was the last open stream *)
  if (params_set p =? 0) && truthy old_params_set then
    ret <- hw (snd_soc_component_set_sysclk ARIZONA_CLK_SRC_FLL1 0) ;;
    pure 0
  else pure 0.

End Driver.

Arguments world : clear implicits.

(** ** Entry points and runs *)

(** The callbacks the framework invokes on the clock state. *)
Inductive entry_point : Type :=
  | spdif_rx_enable_event (event : dapm_event)
  | set_bias_level (dapm : snd_soc_dapm_context) (level : snd_soc_bias_level)
  | set_bias_level_post (dapm : snd_soc_dapm_context) (level : snd_soc_bias_level)
  | hw_params (substream : pcm_stream) (params : snd_pcm_hw_params)
  | hw_free (substream : pcm_stream).

Definition run_entry {codec_state : Type}
    (codec_call : codec_state -> hw_call -> Z * codec_state)
    (e : entry_point) : drv (world codec_state) Z :=
  match e with
  | spdif_rx_enable_event event => rpi_cirrus_spdif_rx_enable_event codec_call event
  | set_bias_level dapm level => rpi_cirrus_set_bias_level codec_call dapm level
  | set_bias_level_post dapm level => rpi_cirrus_set_bias_level_post codec_call dapm level
  | hw_params substream params => rpi_cirrus_hw_params codec_call substream params
  | hw_free substream => rpi_cirrus_hw_free codec_call substream
  end.

Fixpoint run_entries {codec_state : Type}
    (codec_call : codec_state -> hw_call -> Z * codec_state)
    (es : list entry_point) (w : world codec_state) : world codec_state :=
  match es with
  | [] => w
  | e :: es' => run_entries codec_call es' (snd (run_entry codec_call e w))
  end.

(** The world right after [rpi_cirrus_probe]; [rpi_cirrus_dai_link2_params]
    has its static initialiser. *)
Definition rpi_cirrus_probe_world {codec_state : Type} (h : codec_state)
    : world codec_state :=
  mk_world rpi_cirrus_probe_priv
           (mk_pcm_stream RPI_CIRRUS_DEFAULT_RATE RPI_CIRRUS_DEFAULT_RATE) h [].

(** The log entries an action appended, and the calls among them. *)
Definition issued {codec_state : Type} (w w' : world codec_state)
    : list (hw_call * Z) :=
  skipn (length (log w)) (log w').

Definition calls (l : list (hw_call * Z)) : list hw_call := map fst l.

Definition all_ok (l : list (hw_call * Z)) : bool :=
  forallb (fun e => snd e =? 0) l.

(** The relation between the sync path and the sign of [fll1_freq]. *)
Definition sync_inv (p : rpi_cirrus_priv) : Prop :=
  sync_path_enable p <> 0 -> fll1_freq p <= 0.

(** [errno] of a failed bus transfer; calls report it negated. *)
Definition EIO : Z := 5.

(** A device driven by a script: its successive calls return the listed
    statuses, and 0 once the script is used up. *)
Definition scripted_codec (script : list Z) (c : hw_call) : Z * list Z :=
  match script with
  | [] => (0, [])
  | r :: rest => (r, rest)
  end.

(** The status the device returns for call [c] in state [h], and the state
    it moves to. *)
Definition status {codec_state : Type}
    (codec_call : codec_state -> hw_call -> Z * codec_state)
    (h : codec_state) (c : hw_call) : Z := fst (codec_call h c).

Definition after {codec_state : Type}
    (codec_call : codec_state -> hw_call -> Z * codec_state)
    (h : codec_state) (c : hw_call) : codec_state := snd (codec_call h c).

(** The calls the FLL helpers make. *)
Definition fll1_off : hw_call :=
  snd_soc_component_set_pll WM5102_FLL1 ARIZONA_FLL_SRC_NONE 0 0.
Definition fll1_refclk_off : hw_call :=
  snd_soc_component_set_pll WM5102_FLL1_REFCLK ARIZONA_FLL_SRC_NONE 0 0.
Definition fll1_local (clk_freq : Z) : hw_call :=
  snd_soc_component_set_pll WM5102_FLL1 ARIZONA_CLK_SRC_MCLK1
    WM8804_CLKOUT_HZ clk_freq.
Definition fll1_refclk_mclk (clk_freq : Z) : hw_call :=
  snd_soc_component_set_pll WM5102_FLL1_REFCLK ARIZONA_CLK_SRC_MCLK1
    WM8804_CLKOUT_HZ clk_freq.
Definition fll1_sync (aif2_freq clk_freq : Z) : hw_call :=
  snd_soc_component_set_pll WM5102_FLL1 ARIZONA_CLK_SRC_AIF2BCLK
    aif2_freq clk_freq.

(** The two power-domain contexts of interest: the WM5102 codec's domain
    coming from standby, and the same domain already fully on. *)
Definition wm5102_dapm_standby : snd_soc_dapm_context :=
  mk_dapm wm5102_codec_dev SND_SOC_BIAS_STANDBY.

(** ** What the clock entry points keep true of the driver data *)

Definition clock_inv (p : rpi_cirrus_priv) : Prop :=
  (sync_path_enable p = 0 \/ sync_path_enable p = 1) /\
  (params_set p = 0 \/ params_set p = 1 \/ params_set p = 2 \/ params_set p = 3) /\
  (fll1_freq p = 0 \/ fll1_freq p = calc_sysclk (card_rate p) \/
   fll1_freq p = - WM5102_MAX_SYSCLK_1 \/ fll1_freq p = - WM5102_MAX_SYSCLK_2).

(** Calls that reprogram one of the WM5102 FLLs. *)
Definition is_fll_call (c : hw_call) : bool :=
  match c with
  | snd_soc_component_set_pll _ _ _ _ => true
  | _ => false
  end.

(** ** Stream open *)

Definition UINT_MAX : Z := 2 ^ 32 - 1.

(** [rpi_cirrus_startup]: the rate window handed to
    [snd_pcm_hw_constraint_minmax], if any.  The outer [None] stands for a
    table read past the end of [min_rates] or [max_rates]; [Some None] for
    no constraint.  The function itself always returns 0. *)
Definition rpi_cirrus_startup (p : rpi_cirrus_priv) : option (option (Z * Z)) :=
  match min_rate_at (min_rate_idx p), max_rate_at (max_rate_idx p) with
  | Some min_rate, Some max_rate =>
      if truthy min_rate || truthy max_rate then
        let max_rate := if max_rate =? 0 then UINT_MAX else max_rate in
        Some (Some (min_rate, max_rate))
      else Some None
  | _, _ => None
  end.

(** ** Names of the enumerated controls *)

From Stdlib Require String.

Module Texts.
Import String.

Definition min_rate_texts : list string :=
  ["off"%string; "32kHz"%string; "44.1kHz"%string].

Definition max_rate_texts : list string :=
  ["off"%string; "48kHz"%string; "96kHz"%string].

Definition recovered_frequency_texts : list string :=
  ["176.4/192 kHz"%string; "88.2/96 kHz"%string; "44.1/48 kHz"%string;
   "32 kHz"%string].

End Texts.

Definition NUM_RECOVERED_FREQUENCIES : Z :=
  Z.of_nat (length Texts.recovered_frequency_texts).

(** [rpi_cirrus_recovered_frequency_info]: the item whose name is copied. *)
Definition rpi_cirrus_recovered_frequency_info (item : Z) : Z :=
  if NUM_RECOVERED_FREQUENCIES <=? item
  then NUM_RECOVERED_FREQUENCIES - 1 else item.

(** The name each info callback copies into [uinfo->value.enumerated.name];
    [None] stands for a read past the end of the table. *)
Definition min_rate_info_name (item : Z) : option String.string :=
  nth_error Texts.min_rate_texts (Z.to_nat (rpi_cirrus_min_rate_info item)).
Definition max_rate_info_name (item : Z) : option String.string :=
  nth_error Texts.max_rate_texts (Z.to_nat (rpi_cirrus_max_rate_info item)).
Definition recovered_frequency_info_name (item : Z) : option String.string :=
  nth_error Texts.recovered_frequency_texts
    (Z.to_nat (rpi_cirrus_recovered_frequency_info item)).

(** ** Register access and card initialisation *)

Inductive soc_component : Type := wm5102_component | wm8804_component.

(** Every operation the driver performs on the codecs: the calls of the
    clock controller, register reads and masked writes, and the clock
    divider call of the WM8804 initialisation. *)
Inductive codec_op : Type :=
  | clock_call (c : hw_call)
  | snd_soc_component_read (component : soc_component) (reg : Z)
  | snd_soc_component_update_bits (component : soc_component) (reg mask val : Z)
  | snd_soc_dai_set_clkdiv (dai : soc_dai) (div_id div : Z).

(** Register addresses and field values of the codec headers
    ([wm8804.h], [arizona/registers.h]), which the driver only names. *)
Record codec_headers : Type := mk_codec_headers {
  WM8804_SPDTX1 : Z;
  WM8804_RXCHAN1 : Z;
  WM8804_SPDSTAT : Z;
  WM8804_INTSTAT : Z;
  WM8804_MCLK_DIV : Z;
  WM8804_MCLKDIV_256FS : Z;
  ARIZONA_CLOCK_32K_1 : Z;
  ARIZONA_CLK_32K_SRC_MASK : Z
}.

Definition set_iec958_status (v : list Z) (p : rpi_cirrus_priv) : rpi_cirrus_priv :=
  mk_priv (card_rate p) (sync_path_enable p) (fll1_freq p) (params_set p)
          (min_rate_idx p) (max_rate_idx p) v.

(** [a[i]] and [a[i] = v] on an array held as a list. *)
Definition array_get (a : list Z) (i : Z) : Z := nth (Z.to_nat i) a 0.

Fixpoint array_set_nat (a : list Z) (n : nat) (v : Z) : list Z :=
  match a, n with
  | [], _ => []
  | _ :: rest, O => v :: rest
  | x :: rest, S n' => x :: array_set_nat rest n' v
  end.

Definition array_set (a : list Z) (i v : Z) : list Z :=
  array_set_nat a (Z.to_nat i) v.

(** [mask = (i == 3) ? 0x3f : 0xff]. *)
Definition iec958_mask (i : Z) : Z := if i =? 3 then 63 else 255.

(** [for (i = start; ...; i++)] run [n] times, threading the locals [acc]. *)
Fixpoint for_loop {W A : Type} (n : nat) (i : Z)
    (body : Z -> A -> drv W A) (acc : A) : drv W A :=
  match n with
  | O => pure acc
  | S n' => bind (body i acc) (fun acc' => for_loop n' (i + 1) body acc')
  end.

(** [SPDIF_FLAG_CTRL]'s [private_value]. *)
Definition SPDIF_FLAG_CTRL (bit reg invert : Z) : Z :=
  Z.lor (Z.lor bit (Z.shiftl reg 8)) (Z.shiftl invert 16).

Section Card.

Context {codec_state : Type}.
Variable codec_op_call : codec_state -> codec_op -> Z * codec_state.
Variable hdr : codec_headers.

(** The clock controller's view of the device. *)
Definition clock_device (h : codec_state) (c : hw_call) : Z * codec_state :=
  codec_op_call h (clock_call c).

(** The clock controller's world together with the log of every operation. *)
Record card : Type := mk_card {
  clk : world codec_state;
  ops : list (codec_op * Z)
}.

Definition card_priv : drv card rpi_cirrus_priv := fun x => (priv (clk x), x).

Definition card_update_priv (f : rpi_cirrus_priv -> rpi_cirrus_priv) : drv card unit :=
  fun x =>
    (tt, mk_card (mk_world (f (priv (clk x))) (rpi_cirrus_dai_link2_params (clk x))
                           (codec (clk x)) (log (clk x)))
                 (ops x)).

(** One operation on a codec: the device answers, the operation is logged. *)
Definition op (o : codec_op) : drv card Z :=
  fun x =>
    let (r, h) := codec_op_call (codec (clk x)) o in
    (r, mk_card (mk_world (priv (clk x)) (rpi_cirrus_dai_link2_params (clk x))
                          h (log (clk x)))
                (ops x ++ [(o, r)])).

(** The answer of the device to operation [o] in state [h], and the state
    it moves to. *)
Definition op_status (h : codec_state) (o : codec_op) : Z :=
  fst (codec_op_call h o).

Definition op_after (h : codec_state) (o : codec_op) : codec_state :=
  snd (codec_op_call h o).

(** The device run through a list of operations: each operation with the
    answer the device gives in the state the operations before left it
    in, and the state after the last one. *)
Fixpoint device_run (h : codec_state) (os : list codec_op) : list (codec_op * Z) :=
  match os with
  | [] => []
  | o :: os' => (o, op_status h o) :: device_run (op_after h o) os'
  end.

Fixpoint device_after (h : codec_state) (os : list codec_op) : codec_state :=
  match os with
  | [] => h
  | o :: os' => device_after (op_after h o) os'
  end.

(** Run an action of the clock controller; its calls join the log. *)
Definition lift {A : Type} (f : drv (world codec_state) A) : drv card A :=
  fun x =>
    let (a, w') := f (clk x) in
    (a, mk_card w' (ops x ++ map (fun e => (clock_call (fst e), snd e))
                                 (issued (clk x) w'))).

Local Open Scope drv_scope.

(** *** IEC958 controls *)

Definition rpi_cirrus_spdif_playback_get : drv card (list Z) :=
  for_loop 4 0
    (fun i status =>
       p <- card_priv ;;
       pure (status ++ [array_get (iec958_status p) i]))
    [].

Definition rpi_cirrus_spdif_playback_put (ctrl_stat : list Z) : drv card Z :=
  for_loop 4 0
    (fun i changed =>
       p <- card_priv ;;
       let stat := iec958_status p in
       let mask := iec958_mask i in
       if negb (Z.land (array_get ctrl_stat i) mask =? Z.land (array_get stat i) mask)
       then
         let v := Z.land (array_get ctrl_stat i) mask in
         card_update_priv (set_iec958_status (array_set stat i v)) ;;
         op (snd_soc_component_update_bits wm8804_component
               (WM8804_SPDTX1 hdr + i) mask v) ;;
         pure 1
       else pure changed)
    0.

Definition rpi_cirrus_spdif_mask_get : list Z := [255; 255; 255; 63].

Definition rpi_cirrus_spdif_capture_get : drv card (list Z) :=
  for_loop 4 0
    (fun i status =>
       val <- op (snd_soc_component_read wm8804_component (WM8804_RXCHAN1 hdr + i)) ;;
       let mask := iec958_mask i in
       pure (status ++ [Z.land val mask]))
    [].

Definition rpi_cirrus_spdif_status_flag_get (private_value : Z) : drv card Z :=
  let bit := Z.land private_value 255 in
  let reg := Z.land (Z.shiftr private_value 8) 255 in
  let invert := Z.land (Z.shiftr private_value 16) 255 in
  val <- op (snd_soc_component_read wm8804_component reg) ;;
  let flag := truthy (Z.land val (Z.shiftl 1 bit)) in
  pure (if truthy invert then (if flag then 0 else 1) else (if flag then 1 else 0)).

Definition rpi_cirrus_recovered_frequency_get : drv card Z :=
  val <- op (snd_soc_component_read wm8804_component (WM8804_SPDSTAT hdr)) ;;
  pure (Z.land (Z.shiftr val 4) 3).

(** *** Codec initialisation *)

Definition rpi_cirrus_init_wm5102 : drv card Z :=
  (* no 32kHz input, derive it from sysclk if needed *)
  op (snd_soc_component_update_bits wm5102_component
        (ARIZONA_CLOCK_32K_1 hdr) (ARIZONA_CLK_32K_SRC_MASK hdr) 2) ;;
  (* a failed clear is only warned about *)
  lift (rpi_cirrus_clear_flls clock_device) ;;
  ret <- lift (hw clock_device (snd_soc_component_set_sysclk ARIZONA_CLK_SRC_FLL1 0)) ;;
  if truthy ret then pure ret
  else pure 0.

Definition rpi_cirrus_init_wm8804 : drv card Z :=
  for_loop 4 0
    (fun i (_ : unit) =>
       val <- op (snd_soc_component_read wm8804_component (WM8804_SPDTX1 hdr + i)) ;;
       let mask := iec958_mask i in
       p <- card_priv ;;
       card_update_priv
         (set_iec958_status (array_set (iec958_status p) i (Z.land val mask))))
    tt ;;
  (* Setup for 256fs *)
  ret <- op (snd_soc_dai_set_clkdiv wm8804_dai
               (WM8804_MCLK_DIV hdr) (WM8804_MCLKDIV_256FS hdr)) ;;
  if truthy ret then pure ret
  else
    (* Output OSC on CLKOUT; the status is overwritten below *)
    lift (hw clock_device
            (snd_soc_dai_set_sysclk wm8804_dai WM8804_CLKOUT_SRC_OSCCLK
               WM8804_CLKOUT_HZ 0)) ;;
    (* Init PLL with default samplerate *)
    lift (rpi_cirrus_set_wm8804_pll clock_device RPI_CIRRUS_DEFAULT_RATE).

End Card.

Arguments card : clear implicits.

(** The operations an action appended to the log of the card. *)
Definition performed {codec_state : Type} (x x' : card codec_state)
    : list (codec_op * Z) :=
  skipn (length (ops x)) (ops x').

(** A device driven by a script: its successive operations return the
    listed values, and 0 once the script is used up. *)
Definition scripted_card_codec (script : list Z) (o : codec_op) : Z * list Z :=
  match script with
  | [] => (0, [])
  | r :: rest => (r, rest)
  end.

(** The card right after [rpi_cirrus_probe]. *)
Definition rpi_cirrus_probe_card {codec_state : Type} (h : codec_state)
    : card codec_state :=
  mk_card (rpi_cirrus_probe_world h) [].

(** Sample register addresses for the concrete runs. *)
Definition sample_headers : codec_headers :=
  mk_codec_headers 18 13 12 11 1 1 256 3.

(** * Properties *)

(** ** Integers *)

Lemma calc_sysclk_cases (rate : Z) :
  calc_sysclk rate = WM5102_MAX_SYSCLK_1 \/ calc_sysclk rate = WM5102_MAX_SYSCLK_2.
Proof.
  unfold calc_sysclk. destruct (truthy (rate mod 4000)); auto.
Qed.

Lemma to_int_calc_sysclk (rate : Z) :
  to_int (calc_sysclk rate) = calc_sysclk rate.
Proof.
  destruct (calc_sysclk_cases rate) as [E | E]; rewrite E; reflexivity.
Qed.

Lemma to_int_neg_calc_sysclk (rate : Z) :
  to_int (- calc_sysclk rate) = - calc_sysclk rate.
Proof.
  destruct (calc_sysclk_cases rate) as [E | E]; rewrite E; reflexivity.
Qed.

Lemma calc_sysclk_pos (rate : Z) : 0 < calc_sysclk rate.
Proof.
  destruct (calc_sysclk_cases rate) as [E | E]; rewrite E; reflexivity.
Qed.



(** ** C2: the rate family chosen by [calc_sysclk] *)

(** C2, as stated, fails: the claim gives multiples of 4000 the 44.1 kHz
    family constant 45158400 and every other rate the 48 kHz family
    constant 49152000.  At 48000 Hz, a multiple of 4000, the code returns
    49152000. *)
Lemma calc_sysclk_48000_not_44k1_family :
  ~ (forall r : Z, 0 <= r < 2 ^ 32 ->
       (calc_sysclk r = 45158400 <-> r mod 4000 = 0) /\
       (r mod 4000 <> 0 -> calc_sysclk r = 49152000)).
Proof.
  intros H.
  destruct (H 48000 ltac:(lia)) as [[_ H1] _].
  specialize (H1 eq_refl). vm_compute in H1. discriminate H1.
Qed.

(** C2, amended: [calc_sysclk r] is the 4k / 48 kHz family constant
    49152000 exactly when [r] is a multiple of 4000, and the 11.025k /
    44.1 kHz family constant 45158400 exactly when it is not. *)
Theorem calc_sysclk_family (r : Z) :
  (calc_sysclk r = 49152000 <-> r mod 4000 = 0) /\
  (calc_sysclk r = 45158400 <-> r mod 4000 <> 0).
Proof.
  unfold calc_sysclk, truthy, WM5102_MAX_SYSCLK_1, WM5102_MAX_SYSCLK_2.
  destruct (Z.eqb_spec (r mod 4000) 0) as [E | E]; simpl;
    repeat split; intros; try congruence; try discriminate.
Qed.

Lemma calc_sysclk_family_witness :
  calc_sysclk 48000 = 49152000 /\ calc_sysclk 44100 = 45158400.
Proof.
  split.
  - apply (proj2 (proj1 (calc_sysclk_family 48000))). reflexivity.
  - apply (proj2 (proj2 (calc_sysclk_family 44100))). discriminate.
Defined.

(** ** Running the driver against the device *)

Lemma skipn_length_app {A : Type} (l x : list A) : skipn (length l) (l ++ x) = x.
Proof.
  induction l as [| a l IH]; simpl; auto.
Qed.

Lemma skipn_length_self {A : Type} (l : list A) : skipn (length l) l = [].
Proof.
  induction l as [| a l IH]; simpl; auto.
Qed.

Section Properties.

Context {codec_state : Type}.
Variable codec_call : codec_state -> hw_call -> Z * codec_state.

Lemma hw_eq (c : hw_call) (w : world codec_state) :
  hw codec_call c w =
  (status codec_call (codec w) c,
   mk_world (priv w) (rpi_cirrus_dai_link2_params w)
            (after codec_call (codec w) c)
            (log w ++ [(c, status codec_call (codec w) c)])).
Proof.
  unfold hw, status, after. destruct (codec_call (codec w) c); reflexivity.
Qed.

(** Unfold an entry point down to device answers. *)
Ltac drv_cbn :=
  cbn -[Z.mul Z.opp Z.lor Z.land Z.shiftl Z.lnot Z.ltb Z.leb Z.eqb
        Z.pow Z.modulo to_uint to_int calc_sysclk truthy].

Ltac drv_run :=
  unfold rpi_cirrus_spdif_rx_enable_event, rpi_cirrus_set_bias_level,
    rpi_cirrus_set_bias_level_post, rpi_cirrus_hw_params,
    rpi_cirrus_hw_params_fll, rpi_cirrus_hw_free,
    rpi_cirrus_set_wm8804_pll, rpi_cirrus_set_fll_refclk,
    rpi_cirrus_set_fll, rpi_cirrus_clear_flls,
    bind, pure, get_priv, update_priv, put_dai_link2_params,
    fll1_off, fll1_refclk_off, fll1_local, fll1_refclk_mclk, fll1_sync;
  drv_cbn; repeat (rewrite hw_eq; drv_cbn).

(** Bring the appended log entries into view. *)
Ltac issued_run :=
  unfold issued; cbn [log];
  rewrite <- ?app_assoc;
  rewrite ?skipn_length_app, ?skipn_length_self; cbn [app].

(** Run the driver up to the next test of a device answer. *)
Ltac drv_simpl :=
  repeat (progress (try unfold truthy; rewrite ?Z.eqb_refl, ?hw_eq; drv_cbn)).

(** Split on whether the next device answer under test is a failure. *)
Ltac status_step :=
  match goal with
  | |- context [status codec_call ?h ?c =? 0] =>
      let E := fresh "E" in
      destruct (Z.eqb_spec (status codec_call h c) 0) as [E | E];
      [try contradiction; rewrite ?E |]
  end;
  drv_simpl.

(** Split on a test of the driver data or of the arguments. *)
Ltac cond_step :=
  match goal with
  | |- context [if ?b then _ else _] =>
      lazymatch b with
      | context [status] => fail
      | _ => let C := fresh "C" in destruct b eqn:C
      end
  end;
  drv_simpl.

Ltac status_cases := drv_simpl; repeat (first [status_step | cond_step]).

(** ** C4: [rpi_cirrus_clear_flls] *)



(** ** C5: the routing event of the S/PDIF receive path *)


(** ** C7: the prepare bias transition *)


(** ** The log only grows *)

Lemma issued_log (e : entry_point) (w : world codec_state) :
  let w' := snd (run_entry codec_call e w) in
  log w' = log w ++ issued w w'.
Proof.
  destruct w as [p d h l]. cbv zeta.
  destruct e as [ev | [dv bl] lvl | [dv bl] lvl | s [wd rt] | s]; cbn [run_entry];
    [destruct ev | destruct dv, lvl, bl | destruct dv, lvl | |];
    drv_run; status_cases; issued_run;
    rewrite <- ?app_assoc, ?app_nil_r; reflexivity.
Qed.

(** ** C3: [rpi_cirrus_hw_params] *)

Lemma to_uint_int_eqb (f clk : Z) :
  0 < f < 2 ^ 31 -> (to_uint f =? clk) = (f =? clk).
Proof.
  intros Hf. unfold to_uint. rewrite Z.mod_small by lia. reflexivity.
Qed.

(** A negotiation in which no call fails runs to its end: it returns 0,
    records the rate and the stream direction, and records the new FLL1
    frequency when it retuned the FLL. *)
Lemma rpi_cirrus_hw_params_all_ok
    (w : world codec_state) (substream : pcm_stream) (params : snd_pcm_hw_params) :
  let p := priv w in
  let rate := params_rate params in
  let clk_freq := calc_sysclk rate in
  let retune := (0 <? fll1_freq p) && negb (to_uint (fll1_freq p) =? clk_freq) in
  let res := rpi_cirrus_hw_params codec_call substream params w in
  all_ok (issued w (snd res)) = true ->
  fst res = 0 /\
  priv (snd res) =
    set_params_set (Z.lor (params_set p) (Z.shiftl 1 (stream substream)))
      (set_card_rate rate (if retune then set_fll1_freq clk_freq p else p)).
Proof.
  destruct w as [p d h l]. destruct params as [wd rt]. cbv zeta.
  drv_run. status_cases; issued_run; unfold all_ok; cbn [forallb snd andb];
    rewrite ?Z.eqb_refl; cbn [andb];
    repeat match goal with
    | E : ?r <> 0 |- _ => rewrite (proj2 (Z.eqb_neq r 0) E)
    end;
    rewrite ?andb_false_r; cbn [andb]; intros Hok; try discriminate Hok;
    rewrite ?to_int_calc_sysclk; split; reflexivity.
Qed.

(** One [rpi_cirrus_hw_params] as the device sees it: every logged status
    is the device's answer in the state the calls before left it in, the
    run stops at the first failing step (the two FLL disable calls count
    as one step), and the returned status is the first failure up to the
    SYSCLK call, and the [0] that call left otherwise. *)
Lemma rpi_cirrus_hw_params_device
    (w : world codec_state) (substream : pcm_stream) (params : snd_pcm_hw_params) :
  let p := priv w in
  let rate := params_rate params in
  let width := format_width params in
  let clk_freq := calc_sysclk rate in
  let bclk := snd_soc_dai_set_bclk_ratio bcm_i2s_dai (to_uint (2 * width)) in
  let tdm := snd_soc_dai_set_tdm_slot wm5102_codec_dai 3 3 2 (to_int width) in
  let wm8804_pll :=
    snd_soc_dai_set_pll wm8804_dai 0 0 WM8804_CLKOUT_HZ (to_uint (rate * 256)) in
  let wm8804_mclk :=
    snd_soc_dai_set_sysclk wm8804_dai WM8804_TX_CLKSRC_PLL (to_uint (rate * 256)) 0 in
  let sysclk := snd_soc_component_set_sysclk ARIZONA_CLK_SRC_FLL1 clk_freq in
  let retune := (0 <? fll1_freq p) && negb (to_uint (fll1_freq p) =? clk_freq) in
  let r1 := status codec_call (codec w) bclk in
  let h1 := after codec_call (codec w) bclk in
  let r2 := status codec_call h1 tdm in
  let h2 := after codec_call h1 tdm in
  let r3 := status codec_call h2 wm8804_pll in
  let h3 := after codec_call h2 wm8804_pll in
  let r4 := status codec_call h3 wm8804_mclk in
  let h4 := after codec_call h3 wm8804_mclk in
  let h := if 32000 <=? rate then h4 else h2 in
  let r5 := status codec_call h sysclk in
  let h5 := after codec_call h sysclk in
  let r6 := status codec_call h5 fll1_off in
  let h6 := after codec_call h5 fll1_off in
  let r7 := status codec_call h6 fll1_refclk_off in
  let h7 := after codec_call h6 fll1_refclk_off in
  let r8 := status codec_call h7 (fll1_local clk_freq) in
  let h8 := after codec_call h7 (fll1_local clk_freq) in
  let fll_steps :=
    if retune
    then (fll1_off, r6) :: (fll1_refclk_off, r7) ::
         (if (r6 =? 0) && (r7 =? 0) then [(fll1_local clk_freq, r8)] else [])
    else [] in
  let sysclk_steps := (sysclk, r5) :: (if r5 =? 0 then fll_steps else []) in
  let wm8804_steps :=
    if 32000 <=? rate
    then (wm8804_pll, r3) ::
         (if r3 =? 0
          then (wm8804_mclk, r4) :: (if r4 =? 0 then sysclk_steps else [])
          else [])
    else sysclk_steps in
  let res := rpi_cirrus_hw_params codec_call substream params w in
  issued w (snd res) =
    (bclk, r1) ::
    (if r1 =? 0
     then (tdm, r2) :: (if r2 =? 0 then wm8804_steps else [])
     else []) /\
  fst res =
    (if negb (r1 =? 0) then r1
     else if negb (r2 =? 0) then r2
     else if (32000 <=? rate) && negb (r3 =? 0) then r3
     else if (32000 <=? rate) && negb (r4 =? 0) then r4
     else r5) /\
  codec (snd res) =
    (if negb (r1 =? 0) then h1
     else if negb (r2 =? 0) then h2
     else if (32000 <=? rate) && negb (r3 =? 0) then h3
     else if (32000 <=? rate) && negb (r4 =? 0) then h4
     else if negb (r5 =? 0) || negb retune then h5
     else if (r6 =? 0) && (r7 =? 0) then h8
     else h7).
Proof.
  destruct w as [p d h l]. destruct params as [wd rt]. cbv zeta.
  cbn [priv codec params_rate format_width].
  drv_run.
  split; [| split].
  - destruct (32000 <=? rt); drv_cbn; status_cases; try congruence;
      issued_run; reflexivity.
  - destruct (32000 <=? rt); drv_cbn; status_cases; try congruence;
      repeat match goal with
      | E : ?r <> 0 |- _ => rewrite (proj2 (Z.eqb_neq r 0) E)
      end; cbn [negb andb]; reflexivity.
  - destruct (32000 <=? rt); drv_cbn; status_cases; try congruence;
      repeat match goal with
      | E : ?r <> 0 |- _ => rewrite (proj2 (Z.eqb_neq r 0) E)
      end; cbn [negb andb orb]; reflexivity.
Qed.

(** C3: one [rpi_cirrus_hw_params] at rate [rate], as the device sees it.
    The calls, in order: the bit-clock ratio and TDM slots of the
    interface; the WM8804 PLL at [256 * rate] (and its MCLK) if and only
    if [rate >= 32000], whatever the FLL state; the WM5102 SYSCLK from
    FLL1 at [calc_sysclk rate]; and the two FLL disable calls followed by
    FLL1 from MCLK1 at [calc_sysclk rate] if and only if, at entry,
    [fll1_freq > 0] and [fll1_freq <> calc_sysclk rate].  Each call is
    logged with the status the device answered in the state the calls
    before left it in, and the run stops at the first failing step (both
    disable calls are always issued together).  The returned status is
    the first failure up to the SYSCLK call, and the device is left in
    the state its last call produced.  A run in which no call
    fails issues the whole sequence, returns 0, stores [card_rate = rate],
    sets the stream's direction bit in [params_set], stores the new
    frequency in [fll1_freq] if it retuned, and leaves the device in the
    state its last call produced.  [fll1_freq] is assumed to hold an
    [int].  [rate * 256] is computed in [unsigned int]; it is the exact
    product for every rate below 2^24. *)
Theorem rpi_cirrus_hw_params_spec
    (w : world codec_state) (substream : pcm_stream) (params : snd_pcm_hw_params) :
  let p := priv w in
  let rate := params_rate params in
  let width := format_width params in
  let clk_freq := calc_sysclk rate in
  let bclk := snd_soc_dai_set_bclk_ratio bcm_i2s_dai (to_uint (2 * width)) in
  let tdm := snd_soc_dai_set_tdm_slot wm5102_codec_dai 3 3 2 (to_int width) in
  let wm8804_pll :=
    snd_soc_dai_set_pll wm8804_dai 0 0 WM8804_CLKOUT_HZ (to_uint (rate * 256)) in
  let wm8804_mclk :=
    snd_soc_dai_set_sysclk wm8804_dai WM8804_TX_CLKSRC_PLL (to_uint (rate * 256)) 0 in
  let sysclk := snd_soc_component_set_sysclk ARIZONA_CLK_SRC_FLL1 clk_freq in
  let retune := (0 <? fll1_freq p) && negb (fll1_freq p =? clk_freq) in
  let r1 := status codec_call (codec w) bclk in
  let h1 := after codec_call (codec w) bclk in
  let r2 := status codec_call h1 tdm in
  let h2 := after codec_call h1 tdm in
  let r3 := status codec_call h2 wm8804_pll in
  let h3 := after codec_call h2 wm8804_pll in
  let r4 := status codec_call h3 wm8804_mclk in
  let h4 := after codec_call h3 wm8804_mclk in
  let h := if 32000 <=? rate then h4 else h2 in
  let r5 := status codec_call h sysclk in
  let h5 := after codec_call h sysclk in
  let r6 := status codec_call h5 fll1_off in
  let h6 := after codec_call h5 fll1_off in
  let r7 := status codec_call h6 fll1_refclk_off in
  let h7 := after codec_call h6 fll1_refclk_off in
  let r8 := status codec_call h7 (fll1_local clk_freq) in
  let h8 := after codec_call h7 (fll1_local clk_freq) in
  let fll_steps :=
    if retune
    then (fll1_off, r6) :: (fll1_refclk_off, r7) ::
         (if (r6 =? 0) && (r7 =? 0) then [(fll1_local clk_freq, r8)] else [])
    else [] in
  let sysclk_steps := (sysclk, r5) :: (if r5 =? 0 then fll_steps else []) in
  let wm8804_steps :=
    if 32000 <=? rate
    then (wm8804_pll, r3) ::
         (if r3 =? 0
          then (wm8804_mclk, r4) :: (if r4 =? 0 then sysclk_steps else [])
          else [])
    else sysclk_steps in
  let plan :=
    [bclk; tdm] ++
    (if 32000 <=? rate then [wm8804_pll; wm8804_mclk] else []) ++
    [sysclk] ++
    (if retune then [fll1_off; fll1_refclk_off; fll1_local clk_freq] else []) in
  let res := rpi_cirrus_hw_params codec_call substream params w in
  - 2 ^ 31 <= fll1_freq p < 2 ^ 31 ->
  issued w (snd res) =
    (bclk, r1) ::
    (if r1 =? 0
     then (tdm, r2) :: (if r2 =? 0 then wm8804_steps else [])
     else []) /\
  fst res =
    (if negb (r1 =? 0) then r1
     else if negb (r2 =? 0) then r2
     else if (32000 <=? rate) && negb (r3 =? 0) then r3
     else if (32000 <=? rate) && negb (r4 =? 0) then r4
     else r5) /\
  codec (snd res) =
    (if negb (r1 =? 0) then h1
     else if negb (r2 =? 0) then h2
     else if (32000 <=? rate) && negb (r3 =? 0) then h3
     else if (32000 <=? rate) && negb (r4 =? 0) then h4
     else if negb (r5 =? 0) || negb retune then h5
     else if (r6 =? 0) && (r7 =? 0) then h8
     else h7) /\
  (all_ok (issued w (snd res)) = true ->
   calls (issued w (snd res)) = plan /\
   fst res = 0 /\
   priv (snd res) =
     set_params_set (Z.lor (params_set p) (Z.shiftl 1 (stream substream)))
       (set_card_rate rate (if retune then set_fll1_freq clk_freq p else p)) /\
   codec (snd res) = (if retune then h8 else h5)) /\
  (r1 = 0 -> r2 = 0 ->
   (In wm8804_pll (calls (issued w (snd res))) <-> 32000 <= rate)) /\
  (r1 = 0 -> r2 = 0 -> (32000 <= rate -> r3 = 0 /\ r4 = 0) -> r5 = 0 ->
   (In fll1_off (calls (issued w (snd res))) <->
    0 < fll1_freq p /\ fll1_freq p <> clk_freq) /\
   (r6 = 0 -> r7 = 0 ->
    (In (fll1_local clk_freq) (calls (issued w (snd res))) <->
     0 < fll1_freq p /\ fll1_freq p <> clk_freq))) /\
  (0 <= rate < 2 ^ 24 -> to_uint (rate * 256) = 256 * rate).
Proof.
  cbv zeta. intros Hint.
  assert (Hcond : (0 <? fll1_freq (priv w)) &&
                  negb (to_uint (fll1_freq (priv w)) =? calc_sysclk (params_rate params)) =
                  (0 <? fll1_freq (priv w)) &&
                  negb (fll1_freq (priv w) =? calc_sysclk (params_rate params))).
  { destruct (Z.ltb_spec 0 (fll1_freq (priv w))) as [Hp | Hp]; cbn [andb]; auto.
    rewrite to_uint_int_eqb by lia. reflexivity. }
  destruct (rpi_cirrus_hw_params_device w substream params) as [Hlog [Hret Hcodec]].
  cbv zeta in Hlog, Hret, Hcodec. rewrite Hcond in Hlog, Hcodec.
  split; [exact Hlog |].
  split; [exact Hret |].
  split; [exact Hcodec |].
  split; [| split; [| split]].
  - intros Hok.
    pose proof (rpi_cirrus_hw_params_all_ok w substream params Hok) as [Hzero Hpriv].
    cbv zeta in Hzero, Hpriv. rewrite Hcond in Hpriv.
    split; [| split; [exact Hzero | split; [exact Hpriv |]]].
    all: clear Hzero Hpriv Hret; revert Hok; rewrite Hlog, ?Hcodec;
      clear Hlog Hcodec;
      unfold all_ok, fll1_off, fll1_refclk_off, fll1_local;
      destruct (32000 <=? params_rate params);
      destruct ((0 <? fll1_freq (priv w)) &&
                negb (fll1_freq (priv w) =? calc_sysclk (params_rate params)));
      repeat (cbn [forallb snd andb negb orb calls map fst app];
              match goal with
              | |- context [status codec_call ?h ?c =? 0] =>
                  destruct (status codec_call h c =? 0)
              end);
      cbn [forallb snd andb negb orb calls map fst app];
      intros Hok; try discriminate Hok; reflexivity.
  - intros H1 H2. rewrite Hlog, H1, H2. cbn [Z.eqb].
    unfold fll1_off, fll1_refclk_off, fll1_local.
    destruct (Z.leb_spec 32000 (params_rate params)) as [Hr | Hr].
    + cbn [calls map fst In]. split; [intros _; exact Hr | intros _; auto].
    + repeat match goal with
      | |- context [if ?b then _ else _] => destruct b
      end;
      cbn [calls map fst In]; (split; [intros H | intros H; lia]);
      repeat (destruct H as [H | H]; try discriminate H); contradiction.
  - intros H1 H2 H34 H5.
    assert (Hfll : (0 <? fll1_freq (priv w)) &&
                   negb (fll1_freq (priv w) =? calc_sysclk (params_rate params)) = true <->
                   0 < fll1_freq (priv w) /\
                   fll1_freq (priv w) <> calc_sysclk (params_rate params)).
    { destruct (Z.ltb_spec 0 (fll1_freq (priv w)));
        destruct (Z.eqb_spec (fll1_freq (priv w)) (calc_sysclk (params_rate params)));
        cbn [andb negb]; split; intros; try discriminate; try lia; auto. }
    rewrite <- Hfll. rewrite Hlog, H1, H2. cbn [Z.eqb]. clear Hlog Hret Hcodec Hfll.
    unfold fll1_off, fll1_refclk_off, fll1_local in *.
    destruct (Z.leb_spec 32000 (params_rate params)) as [Hr | Hr].
    + destruct (H34 Hr) as [H3 H4]. rewrite H3, H4, H5. cbn [Z.eqb].
      destruct ((0 <? fll1_freq (priv w)) &&
                negb (fll1_freq (priv w) =? calc_sysclk (params_rate params))).
      * split; [cbn [calls map fst In]; split; auto 10 |].
        intros H6 H7. rewrite H6, H7. cbn [Z.eqb andb calls map fst In].
        split; auto 10.
      * split; [| intros _ _];
          cbn [calls map fst In]; (split; [intros H | intros H; discriminate H]);
          repeat (destruct H as [H | H]; try discriminate H); contradiction.
    + rewrite H5. cbn [Z.eqb].
      destruct ((0 <? fll1_freq (priv w)) &&
                negb (fll1_freq (priv w) =? calc_sysclk (params_rate params))).
      * split; [cbn [calls map fst In]; split; auto 10 |].
        intros H6 H7. rewrite H6, H7. cbn [Z.eqb andb calls map fst In].
        split; auto 10.
      * split; [| intros _ _];
          cbn [calls map fst In]; (split; [intros H | intros H; discriminate H]);
          repeat (destruct H as [H | H]; try discriminate H); contradiction.
  - intros Hr. unfold to_uint. rewrite Z.mod_small; lia.
Qed.

(** ** C6: [rpi_cirrus_hw_free] *)

Lemma clear_bit_testbit (ps s i : Z) :
  0 <= s -> 0 <= i ->
  Z.testbit (Z.land ps (to_uint (Z.lnot (Z.shiftl 1 s)))) i =
  Z.testbit ps i && (i <? 32) && negb (i =? s).
Proof.
  intros Hs Hi. rewrite Z.land_spec. unfold to_uint.
  rewrite <- andb_assoc. f_equal.
  destruct (Z.ltb_spec i 32) as [Hlt | Hge]; cbn [andb].
  - rewrite Z.mod_pow2_bits_low by lia.
    rewrite Z.lnot_spec by lia.
    rewrite Z.shiftl_1_l, Z.pow2_bits_eqb by lia.
    rewrite (Z.eqb_sym s i). reflexivity.
  - apply Z.mod_pow2_bits_high. lia.
Qed.

Lemma rpi_cirrus_hw_free_run (w : world codec_state) (substream : pcm_stream) :
  let p := priv w in
  let cleared :=
    Z.land (params_set p) (to_uint (Z.lnot (Z.shiftl 1 (stream substream)))) in
  let res := rpi_cirrus_hw_free codec_call substream w in
  fst res = 0 /\
  priv (snd res) = set_params_set cleared p /\
  calls (issued w (snd res)) =
    (if (cleared =? 0) && negb (params_set p =? 0)
     then [snd_soc_component_set_sysclk ARIZONA_CLK_SRC_FLL1 0]
     else []).
Proof.
  destruct w as [p d h l]. cbv zeta. drv_run.
  destruct (Z.land (params_set p) (to_uint (Z.lnot (Z.shiftl 1 (stream substream)))) =? 0);
    unfold truthy; destruct (params_set p =? 0); drv_cbn;
    rewrite ?hw_eq; drv_cbn; issued_run; repeat split.
Qed.

(** The SYSCLK-to-zero call of [rpi_cirrus_hw_free] as the device sees it:
    the logged status is the device's answer, and the device moves on. *)
Lemma rpi_cirrus_hw_free_device (w : world codec_state) (substream : pcm_stream) :
  let p := priv w in
  let cleared :=
    Z.land (params_set p) (to_uint (Z.lnot (Z.shiftl 1 (stream substream)))) in
  let sysclk_off := snd_soc_component_set_sysclk ARIZONA_CLK_SRC_FLL1 0 in
  let res := rpi_cirrus_hw_free codec_call substream w in
  issued w (snd res) =
    (if (cleared =? 0) && negb (params_set p =? 0)
     then [(sysclk_off, status codec_call (codec w) sysclk_off)]
     else []) /\
  codec (snd res) =
    (if (cleared =? 0) && negb (params_set p =? 0)
     then after codec_call (codec w) sysclk_off
     else codec w).
Proof.
  destruct w as [p d h l]. cbv zeta. drv_run.
  destruct (Z.land (params_set p) (to_uint (Z.lnot (Z.shiftl 1 (stream substream)))) =? 0);
    unfold truthy; destruct (params_set p =? 0); drv_cbn;
    rewrite ?hw_eq; drv_cbn; issued_run; repeat split.
Qed.

Lemma issued_trans (e1 e2 : entry_point) (w : world codec_state) :
  let w1 := snd (run_entry codec_call e1 w) in
  let w2 := snd (run_entry codec_call e2 w1) in
  issued w w2 = issued w w1 ++ issued w1 w2.
Proof.
  cbv zeta.
  set (w1 := snd (run_entry codec_call e1 w)).
  set (w2 := snd (run_entry codec_call e2 w1)).
  pose proof (issued_log e1 w) as H1. pose proof (issued_log e2 w1) as H2.
  cbv zeta in H1, H2. fold w1 in H1. fold w2 in H2.
  unfold issued at 1. rewrite H2, H1, <- app_assoc.
  apply skipn_length_app.
Qed.

(** C6: [rpi_cirrus_hw_free] returns 0, clears the stream's direction bit
    in [params_set] (and no other of its 32 bits), and issues one call to
    the device, SYSCLK from FLL1 at frequency 0, exactly when this takes
    [params_set] from non-zero to zero: the log then gains that call with
    the status the device answered and the device moves to its next
    state; otherwise the log and the device are untouched.  It never
    changes [fll1_freq], [card_rate] or [sync_path_enable].  So after a
    playback and a capture negotiation that both went through, starting
    with no stream holding parameters, freeing playback issues no call and
    leaves the device alone, and freeing capture then issues exactly the
    one SYSCLK-to-zero call, answered by the device as the negotiations
    left it. *)
Theorem rpi_cirrus_hw_free_spec (w : world codec_state) (substream : pcm_stream) :
  let p := priv w in
  let cleared :=
    Z.land (params_set p) (to_uint (Z.lnot (Z.shiftl 1 (stream substream)))) in
  let res := rpi_cirrus_hw_free codec_call substream w in
  let sysclk_off := snd_soc_component_set_sysclk ARIZONA_CLK_SRC_FLL1 0 in
  fst res = 0 /\
  params_set (priv (snd res)) = cleared /\
  (forall i, 0 <= i ->
     Z.testbit cleared i =
     Z.testbit (params_set p) i && (i <? 32) && negb (i =? stream substream)) /\
  issued w (snd res) =
    (if (cleared =? 0) && negb (params_set p =? 0)
     then [(sysclk_off, status codec_call (codec w) sysclk_off)]
     else []) /\
  codec (snd res) =
    (if (cleared =? 0) && negb (params_set p =? 0)
     then after codec_call (codec w) sysclk_off
     else codec w) /\
  fll1_freq (priv (snd res)) = fll1_freq p /\
  card_rate (priv (snd res)) = card_rate p /\
  sync_path_enable (priv (snd res)) = sync_path_enable p /\
  (forall playback_params capture_params : snd_pcm_hw_params,
     let w1 := snd (rpi_cirrus_hw_params codec_call SNDRV_PCM_STREAM_PLAYBACK
                      playback_params w) in
     let w2 := snd (rpi_cirrus_hw_params codec_call SNDRV_PCM_STREAM_CAPTURE
                      capture_params w1) in
     let w3 := snd (rpi_cirrus_hw_free codec_call SNDRV_PCM_STREAM_PLAYBACK w2) in
     let w4 := snd (rpi_cirrus_hw_free codec_call SNDRV_PCM_STREAM_CAPTURE w3) in
     params_set p = 0 ->
     all_ok (issued w w2) = true ->
     (issued w2 w3 = [] /\ codec w3 = codec w2) /\
     issued w3 w4 = [(sysclk_off, status codec_call (codec w2) sysclk_off)] /\
     codec w4 = after codec_call (codec w2) sysclk_off).
Proof.
  cbv zeta.
  destruct (rpi_cirrus_hw_free_run w substream) as [Hret [Hpriv _]].
  destruct (rpi_cirrus_hw_free_device w substream) as [Hissued Hcodec].
  cbv zeta in Hret, Hpriv, Hissued, Hcodec.
  split; [exact Hret |].
  split; [rewrite Hpriv; reflexivity |].
  split; [intros i Hi; apply clear_bit_testbit;
          [destruct substream; cbn; lia | exact Hi] |].
  split; [exact Hissued |].
  split; [exact Hcodec |].
  split; [rewrite Hpriv; reflexivity |].
  split; [rewrite Hpriv; reflexivity |].
  split; [rewrite Hpriv; reflexivity |].
  intros pp pc Hempty Hok.
  set (w1 := snd (rpi_cirrus_hw_params codec_call SNDRV_PCM_STREAM_PLAYBACK pp w)) in *.
  set (w2 := snd (rpi_cirrus_hw_params codec_call SNDRV_PCM_STREAM_CAPTURE pc w1)) in *.
  pose proof (issued_trans (hw_params SNDRV_PCM_STREAM_PLAYBACK pp)
                           (hw_params SNDRV_PCM_STREAM_CAPTURE pc) w) as Htr.
  cbv zeta in Htr. cbn [run_entry] in Htr. fold w1 in Htr. fold w2 in Htr.
  rewrite Htr in Hok. unfold all_ok in Hok. rewrite forallb_app in Hok.
  apply andb_prop in Hok. destruct Hok as [Hok1 Hok2].
  destruct (rpi_cirrus_hw_params_all_ok w SNDRV_PCM_STREAM_PLAYBACK pp Hok1)
    as [_ Hp1].
  destruct (rpi_cirrus_hw_params_all_ok w1 SNDRV_PCM_STREAM_CAPTURE pc Hok2)
    as [_ Hp2].
  cbv zeta in Hp1, Hp2. fold w1 in Hp1. fold w2 in Hp2.
  assert (Hps2 : params_set (priv w2) = 3).
  { rewrite Hp2. cbn [params_set set_params_set]. rewrite Hp1.
    cbn [params_set set_params_set]. rewrite Hempty. reflexivity. }
  destruct (rpi_cirrus_hw_free_run w2 SNDRV_PCM_STREAM_PLAYBACK) as [_ [Hp3 _]].
  destruct (rpi_cirrus_hw_free_device w2 SNDRV_PCM_STREAM_PLAYBACK) as [Hi3 Hc3].
  cbv zeta in Hp3, Hi3, Hc3. rewrite Hps2 in Hp3, Hi3, Hc3.
  cbn [Z.land Z.lnot Z.shiftl stream to_uint andb negb Z.eqb] in Hi3, Hc3.
  change (Z.land 3 (to_uint (Z.lnot (Z.shiftl 1 0))) =? 0) with false in Hi3, Hc3.
  cbn [andb] in Hi3, Hc3.
  split; [split; [exact Hi3 | exact Hc3] |].
  destruct (rpi_cirrus_hw_free_device
              (snd (rpi_cirrus_hw_free codec_call SNDRV_PCM_STREAM_PLAYBACK w2))
              SNDRV_PCM_STREAM_CAPTURE) as [Hi4 Hc4].
  cbv zeta in Hi4, Hc4. rewrite Hp3, Hc3 in Hi4, Hc4.
  exact (conj Hi4 Hc4).
Qed.

(** ** C8: what a failed clock change leaves behind *)

(** Turn the boolean tests recorded so far into arithmetic facts. *)
Ltac bool_facts :=
  repeat match goal with
  | C : context [?a =? ?b] |- _ => destruct (Z.eqb_spec a b)
  | C : context [?a <? ?b] |- _ => destruct (Z.ltb_spec a b)
  | C : context [?a <=? ?b] |- _ => destruct (Z.leb_spec a b)
  end;
  cbn [negb andb orb] in *; try discriminate.

Ltac all_ok_run :=
  unfold all_ok; cbn [forallb snd andb];
  rewrite ?Z.eqb_refl; cbn [andb];
  repeat match goal with
  | E : ?r <> 0 |- _ => rewrite (proj2 (Z.eqb_neq r 0) E)
  end;
  rewrite ?andb_false_r; cbn [andb].

(** C8, amended: when a hardware call made by an entry point fails, that
    entry point leaves [fll1_freq] (and [sync_path_enable] and
    [card_rate]) exactly as they were at entry: the stale value is kept,
    neither reset to 0 nor replaced by the new target.  For every entry
    point but [hw_free] the whole driver data is left as it was. *)
Theorem failed_call_keeps_clock_state (e : entry_point) (w : world codec_state) :
  let w' := snd (run_entry codec_call e w) in
  all_ok (issued w w') = false ->
  fll1_freq (priv w') = fll1_freq (priv w) /\
  sync_path_enable (priv w') = sync_path_enable (priv w) /\
  card_rate (priv w') = card_rate (priv w) /\
  ((forall substream, e <> hw_free substream) -> priv w' = priv w).
Proof.
  destruct w as [p d h l]. cbv zeta.
  destruct e as [ev | [dv bl] lvl | [dv bl] lvl | s [wd rt] | s]; cbn [run_entry];
    [destruct ev | destruct dv, lvl, bl | destruct dv, lvl | |];
    drv_run; status_cases; issued_run; all_ok_run;
    intros Hfail; try discriminate Hfail;
    repeat split; try reflexivity; intros Hne; try reflexivity;
    exfalso; apply (Hne s); reflexivity.
Qed.

(** ** C1: the sync path and the sign of [fll1_freq] *)

Lemma run_entry_sync_inv (e : entry_point) (w : world codec_state) :
  sync_inv (priv w) -> sync_inv (priv (snd (run_entry codec_call e w))).
Proof.
  destruct w as [p d h l]. unfold sync_inv. cbn [priv].
  destruct e as [ev | [dv bl] lvl | [dv bl] lvl | s [wd rt] | s]; cbn [run_entry];
    [destruct ev | destruct dv, lvl, bl | destruct dv, lvl | |];
    drv_run; status_cases;
    rewrite ?to_int_neg_calc_sysclk, ?to_int_calc_sysclk;
    intros Hinv Hs; bool_facts;
    try (specialize (Hinv Hs)); try lia; try contradiction;
    try (pose proof (calc_sysclk_pos (card_rate p)); lia);
    try (exfalso; apply Hs; reflexivity).
Qed.

Lemma run_entries_sync_inv (es : list entry_point) (w : world codec_state) :
  sync_inv (priv w) -> sync_inv (priv (run_entries codec_call es w)).
Proof.
  revert w. induction es as [| e es IH]; intros w Hinv; cbn [run_entries].
  - exact Hinv.
  - apply IH. apply run_entry_sync_inv. exact Hinv.
Qed.

(** C1: in every state reached from the probe state ([card_rate = 44100],
    [fll1_freq = 0], [sync_path_enable = 0], [params_set = 0]) by any
    sequence of entry points, against any device behaviour, an enabled sync
    path implies [fll1_freq <= 0]. *)
Theorem sync_path_enable_fll1_freq_nonpositive
    (h : codec_state) (es : list entry_point) :
  let p := priv (run_entries codec_call es (rpi_cirrus_probe_world h)) in
  sync_path_enable p <> 0 -> fll1_freq p <= 0.
Proof.
  cbv zeta. apply run_entries_sync_inv.
  unfold sync_inv. cbn. intros H. contradiction.
Qed.

(** ** Invariants of the clock state over runs *)

Lemma to_uint_calc_sysclk (rate : Z) :
  to_uint (calc_sysclk rate) = calc_sysclk rate.
Proof.
  destruct (calc_sysclk_cases rate) as [E | E]; rewrite E; reflexivity.
Qed.

Lemma run_entries_invariant (P : rpi_cirrus_priv -> Prop) :
  (forall e w, P (priv w) -> P (priv (snd (run_entry codec_call e w)))) ->
  forall es w, P (priv w) -> P (priv (run_entries codec_call es w)).
Proof.
  intros Hstep es. induction es as [| e es IH]; intros w HP; cbn [run_entries].
  - exact HP.
  - apply IH. apply Hstep. exact HP.
Qed.

Lemma run_entry_clock_inv (e : entry_point) (w : world codec_state) :
  clock_inv (priv w) -> clock_inv (priv (snd (run_entry codec_call e w))).
Proof.
  destruct w as [p d h l]. destruct p as [cr sy fl ps mi ma ie].
  unfold clock_inv. cbn [priv sync_path_enable params_set fll1_freq card_rate].
  intros [Hsy [Hps Hfl]].
  destruct e as [ev | [dv bl] lvl | [dv bl] lvl | s [wd rt] | s]; cbn [run_entry];
    [destruct ev | destruct dv, lvl, bl | destruct dv, lvl | |];
    drv_run; status_cases;
    rewrite ?to_int_neg_calc_sysclk, ?to_int_calc_sysclk;
    (split; [| split]); auto.
  all: try (destruct (calc_sysclk_cases cr) as [Ec | Ec]; rewrite Ec; auto; fail).
  all: try (destruct s; destruct Hps as [Hps | [Hps | [Hps | Hps]]]; subst ps;
            cbn; auto; fail).
  all: bool_facts.
  all: destruct Hfl as [Hf | [Hf | [Hf | Hf]]]; auto.
  all: try (pose proof (calc_sysclk_pos cr); lia).
  all: right; left;
    match goal with
    | e : to_uint _ = _ |- _ => rewrite Hf, to_uint_calc_sysclk in e; congruence
    end.
Qed.

Lemma probe_clock_inv : clock_inv rpi_cirrus_probe_priv.
Proof.
  unfold clock_inv. cbn. auto.
Qed.

(** X1: in every state reached from the probe state, [fll1_freq] is 0 or
    plus or minus one of the two family constants; in particular it always
    fits an [int]. *)
Theorem fll1_freq_reachable_values (h : codec_state) (es : list entry_point) :
  let p := priv (run_entries codec_call es (rpi_cirrus_probe_world h)) in
  In (fll1_freq p) [0; 45158400; 49152000; - 45158400; - 49152000] /\
  - 2 ^ 31 <= fll1_freq p < 2 ^ 31.
Proof.
  cbv zeta.
  pose proof (run_entries_invariant clock_inv run_entry_clock_inv es
                (rpi_cirrus_probe_world h) probe_clock_inv) as [_ [_ Hfl]].
  set (p := priv (run_entries codec_call es (rpi_cirrus_probe_world h))) in *.
  destruct (calc_sysclk_cases (card_rate p)) as [Ec | Ec];
    rewrite Ec in Hfl;
    unfold WM5102_MAX_SYSCLK_1, WM5102_MAX_SYSCLK_2 in Hfl;
    destruct Hfl as [Hf | [Hf | [Hf | Hf]]]; rewrite Hf; cbn [In];
    split; try lia; auto 10.
Qed.

(** X2: in every state reached from the probe state, a positive
    [fll1_freq] (FLL1 running from the local clock) is the frequency of
    the family of the recorded [card_rate]. *)
Theorem local_fll1_freq_matches_card_rate (h : codec_state) (es : list entry_point) :
  let p := priv (run_entries codec_call es (rpi_cirrus_probe_world h)) in
  0 < fll1_freq p -> fll1_freq p = calc_sysclk (card_rate p).
Proof.
  cbv zeta.
  pose proof (run_entries_invariant clock_inv run_entry_clock_inv es
                (rpi_cirrus_probe_world h) probe_clock_inv) as [_ [_ Hfl]].
  intros Hpos. unfold WM5102_MAX_SYSCLK_1, WM5102_MAX_SYSCLK_2 in Hfl.
  destruct Hfl as [Hf | [Hf | [Hf | Hf]]]; auto; lia.
Qed.

(** X3: in every state reached from the probe state, [params_set] holds
    nothing but the playback and capture bits, and [sync_path_enable] is 0
    or 1. *)
Theorem params_set_reachable_values (h : codec_state) (es : list entry_point) :
  let p := priv (run_entries codec_call es (rpi_cirrus_probe_world h)) in
  0 <= params_set p <= 3 /\ 0 <= sync_path_enable p <= 1.
Proof.
  cbv zeta.
  pose proof (run_entries_invariant clock_inv run_entry_clock_inv es
                (rpi_cirrus_probe_world h) probe_clock_inv) as [Hsy [Hps _]].
  lia.
Qed.

(** X4: no clock entry point writes the rate limits or the cached channel
    status. *)
Theorem run_entry_keeps_controls (e : entry_point) (w : world codec_state) :
  let p' := priv (snd (run_entry codec_call e w)) in
  min_rate_idx p' = min_rate_idx (priv w) /\
  max_rate_idx p' = max_rate_idx (priv w) /\
  iec958_status p' = iec958_status (priv w).
Proof.
  destruct w as [p d h l]. cbv zeta.
  destruct e as [ev | [dv bl] lvl | [dv bl] lvl | s [wd rt] | s]; cbn [run_entry];
    [destruct ev | destruct dv, lvl, bl | destruct dv, lvl | |];
    drv_run; status_cases; repeat split.
Qed.

(** X5: [rpi_cirrus_hw_params] never writes [sync_path_enable], and when
    [fll1_freq] is not positive at entry (FLL1 off or following the S/PDIF
    receive clock) it makes no FLL call and leaves [fll1_freq] as it is,
    whatever rate is negotiated. *)
Theorem rpi_cirrus_hw_params_keeps_referenced_fll
    (w : world codec_state) (substream : pcm_stream) (params : snd_pcm_hw_params) :
  let w' := snd (rpi_cirrus_hw_params codec_call substream params w) in
  sync_path_enable (priv w') = sync_path_enable (priv w) /\
  (fll1_freq (priv w) <= 0 ->
   forallb (fun e => negb (is_fll_call (fst e))) (issued w w') = true /\
   fll1_freq (priv w') = fll1_freq (priv w)).
Proof.
  destruct w as [p d h l]. destruct params as [wd rt]. cbv zeta.
  cbn [priv]. split.
  - drv_run; status_cases; reflexivity.
  - intros Hfl.
    assert (Hlt : (0 <? fll1_freq p) = false) by (apply Z.ltb_ge; exact Hfl).
    drv_run; status_cases;
      try (rewrite Hlt in *; cbn [andb] in *; discriminate);
      issued_run; split; reflexivity.
Qed.

(** X6: once the routing power-up handler has returned 0, a prepare
    transition makes no call and changes nothing. *)
Theorem prepare_after_spdif_rx_enabled
    (w : world codec_state) (dapm : snd_soc_dapm_context) :
  let up := rpi_cirrus_spdif_rx_enable_event codec_call SND_SOC_DAPM_POST_PMU w in
  fst up = 0 ->
  rpi_cirrus_set_bias_level codec_call dapm SND_SOC_BIAS_PREPARE (snd up) =
  (0, snd up).
Proof.
  destruct w as [p d h l]. destruct dapm as [dv bl]. cbv zeta.
  drv_run; status_cases; cbn [fst snd]; intros Hret; try contradiction;
    destruct dv, bl; drv_run; reflexivity.
Qed.

(** ** Closing streams *)

Lemma clear_bit_twice (ps s : Z) :
  0 <= s ->
  Z.land (Z.land ps (to_uint (Z.lnot (Z.shiftl 1 s))))
         (to_uint (Z.lnot (Z.shiftl 1 s))) =
  Z.land ps (to_uint (Z.lnot (Z.shiftl 1 s))).
Proof.
  intros Hs. rewrite <- Z.land_assoc, Z.land_diag. reflexivity.
Qed.

Lemma stream_nonneg (substream : pcm_stream) : 0 <= stream substream < 32.
Proof.
  destruct substream; cbn; lia.
Qed.

(** X7: freeing the same stream a second time makes no call and leaves the
    driver data as the first free left it: the system clock is not
    switched off twice. *)
Theorem rpi_cirrus_hw_free_twice (w : world codec_state) (substream : pcm_stream) :
  let w1 := snd (rpi_cirrus_hw_free codec_call substream w) in
  let w2 := snd (rpi_cirrus_hw_free codec_call substream w1) in
  issued w1 w2 = [] /\ priv w2 = priv w1 /\ codec w2 = codec w1.
Proof.
  cbv zeta.
  destruct (rpi_cirrus_hw_free_run w substream) as [_ [Hp1 _]].
  cbv zeta in Hp1.
  set (w1 := snd (rpi_cirrus_hw_free codec_call substream w)) in *.
  destruct w1 as [p1 d1 h1 l1]. cbn [priv] in Hp1.
  drv_run. rewrite Hp1. cbn [params_set set_params_set].
  rewrite clear_bit_twice by apply stream_nonneg.
  set (c := Z.land (params_set (priv w))
                   (to_uint (Z.lnot (Z.shiftl 1 (stream substream))))).
  unfold truthy. destruct (Z.eqb_spec c 0) as [E | E]; drv_cbn; issued_run;
    repeat split.
Qed.

Lemma set_then_clear_bit (ps s : Z) :
  0 <= s < 32 -> 0 <= ps < 2 ^ 32 -> Z.testbit ps s = false ->
  Z.land (Z.lor ps (Z.shiftl 1 s)) (to_uint (Z.lnot (Z.shiftl 1 s))) = ps.
Proof.
  intros Hs Hps Hbit. apply Z.bits_inj'. intros i Hi.
  rewrite clear_bit_testbit by lia.
  rewrite Z.lor_spec, Z.shiftl_1_l, Z.pow2_bits_eqb by lia.
  destruct (Z.eqb_spec s i) as [E | E].
  - subst i. rewrite Hbit, Z.eqb_refl. destruct (s <? 32); reflexivity.
  - rewrite (proj2 (Z.eqb_neq i s)) by congruence.
    rewrite orb_false_r. cbn [negb]. rewrite andb_true_r.
    destruct (Z.ltb_spec i 32) as [Hlt | Hge].
    + apply andb_true_r.
    + rewrite andb_false_r.
      destruct (Z.eq_dec ps 0) as [Hz | Hnz].
      * subst ps. symmetry. apply Z.testbit_0_l.
      * symmetry. apply Z.bits_above_log2; try lia.
        assert (Z.log2 ps < 32) by (apply Z.log2_lt_pow2; lia). lia.
Qed.

(** X8: a negotiation that went through, followed by the free of the same
    stream, puts [params_set] back to what it was, provided the stream's
    bit was clear before; the free switches the system clock off exactly
    when no other stream held parameters: the log then gains the
    SYSCLK-to-zero call with the status the device, as the negotiation
    left it, answered, and the device moves on; otherwise the free leaves
    the log and the device alone. *)
Theorem rpi_cirrus_hw_params_then_free
    (w : world codec_state) (substream : pcm_stream) (params : snd_pcm_hw_params) :
  let w1 := snd (rpi_cirrus_hw_params codec_call substream params w) in
  let w2 := snd (rpi_cirrus_hw_free codec_call substream w1) in
  let sysclk_off := snd_soc_component_set_sysclk ARIZONA_CLK_SRC_FLL1 0 in
  0 <= params_set (priv w) < 2 ^ 32 ->
  Z.testbit (params_set (priv w)) (stream substream) = false ->
  all_ok (issued w w1) = true ->
  params_set (priv w2) = params_set (priv w) /\
  issued w1 w2 =
    (if params_set (priv w) =? 0
     then [(sysclk_off, status codec_call (codec w1) sysclk_off)]
     else []) /\
  codec w2 =
    (if params_set (priv w) =? 0
     then after codec_call (codec w1) sysclk_off
     else codec w1).
Proof.
  cbv zeta. intros Hps Hbit Hok.
  destruct (rpi_cirrus_hw_params_all_ok w substream params Hok) as [_ Hp1].
  cbv zeta in Hp1.
  destruct (rpi_cirrus_hw_free_run
              (snd (rpi_cirrus_hw_params codec_call substream params w)) substream)
    as [_ [Hp2 _]].
  destruct (rpi_cirrus_hw_free_device
              (snd (rpi_cirrus_hw_params codec_call substream params w)) substream)
    as [Hi2 Hc2].
  cbv zeta in Hp2, Hi2, Hc2. rewrite Hp1 in Hp2, Hi2, Hc2.
  cbn [params_set set_params_set] in Hp2, Hi2, Hc2.
  rewrite set_then_clear_bit in Hp2, Hi2, Hc2 by (auto using stream_nonneg).
  assert (Hnz : Z.lor (params_set (priv w)) (Z.shiftl 1 (stream substream)) <> 0).
  { intros Hz. apply Z.lor_eq_0_iff in Hz. destruct Hz as [_ Hz].
    rewrite Z.shiftl_1_l in Hz.
    pose proof (Z.pow_pos_nonneg 2 (stream substream) ltac:(lia)
                  (proj1 (stream_nonneg substream))). lia. }
  rewrite (proj2 (Z.eqb_neq _ 0) Hnz) in Hi2, Hc2. cbn [negb] in Hi2, Hc2.
  rewrite andb_true_r in Hi2, Hc2.
  split; [rewrite Hp2; reflexivity |].
  split; [exact Hi2 | exact Hc2].
Qed.

(** ** Bias callbacks outside their transition *)

(** X9: the prepare callback does nothing for a power domain other than
    the WM5102's or for a level other than PREPARE, and the post callback
    does nothing for another power domain or for a level other than
    STANDBY; the post callback returns 0 in every case, also when clearing
    the FLLs fails. *)
Theorem bias_callbacks_filter
    (w : world codec_state) (dapm : snd_soc_dapm_context)
    (level : snd_soc_bias_level) :
  (dev dapm <> wm5102_codec_dev \/ level <> SND_SOC_BIAS_PREPARE ->
   rpi_cirrus_set_bias_level codec_call dapm level w = (0, w)) /\
  (dev dapm <> wm5102_codec_dev \/ level <> SND_SOC_BIAS_STANDBY ->
   rpi_cirrus_set_bias_level_post codec_call dapm level w = (0, w)) /\
  fst (rpi_cirrus_set_bias_level_post codec_call dapm level w) = 0.
Proof.
  destruct w as [p d h l]. destruct dapm as [dv bl]. cbn [dev].
  split; [| split].
  - intros [H | H]; destruct dv, level; try contradiction; drv_run; reflexivity.
  - intros [H | H]; destruct dv, level; try contradiction; drv_run; reflexivity.
  - destruct dv, level; drv_run; status_cases; reflexivity.
Qed.

(** ** The status [rpi_cirrus_hw_params] reports *)

(** X10: when [rpi_cirrus_hw_params] returns a non-zero status, that
    status is the answer of the last call it made, every call before it
    succeeded, no FLL call was made, and the driver data and the link
    parameters are as at entry. *)
Theorem rpi_cirrus_hw_params_error
    (w : world codec_state) (substream : pcm_stream) (params : snd_pcm_hw_params) :
  let res := rpi_cirrus_hw_params codec_call substream params w in
  let w' := snd res in
  fst res <> 0 ->
  (exists before c,
     issued w w' = before ++ [(c, fst res)] /\ all_ok before = true) /\
  forallb (fun e => negb (is_fll_call (fst e))) (issued w w') = true /\
  priv w' = priv w /\
  rpi_cirrus_dai_link2_params w' = rpi_cirrus_dai_link2_params w.
Proof.
  destruct w as [p d h l]. destruct params as [wd rt]. cbv zeta.
  drv_run; status_cases; cbn [fst snd]; intros Hret; try contradiction;
    issued_run; (split; [| repeat split]);
    match goal with
    | |- exists before c, ?l = _ /\ _ =>
        exists (removelast l); eexists; split; [reflexivity | reflexivity]
    end.
Qed.

End Properties.

(** * Concrete runs

    The device is scripted; [EIO] is the status of a failed bus transfer. *)

Lemma sync_path_enable_fll1_freq_nonpositive_witness :
  let p := priv (run_entries scripted_codec
                   [spdif_rx_enable_event SND_SOC_DAPM_POST_PMU]
                   (rpi_cirrus_probe_world [])) in
  sync_path_enable p <> 0 /\ fll1_freq p <= 0.
Proof.
  cbv zeta. split.
  - vm_compute. discriminate.
  - apply (sync_path_enable_fll1_freq_nonpositive scripted_codec []
             [spdif_rx_enable_event SND_SOC_DAPM_POST_PMU]).
    vm_compute. discriminate.
Defined.

(** Negotiating 44100 Hz and then 48000 Hz while FLL1 runs locally at
    45158400 Hz: the second negotiation clears the FLLs and sets FLL1 to
    49152000 Hz. *)
Lemma rpi_cirrus_hw_params_spec_witness :
  let start script :=
    run_entries scripted_codec
      [set_bias_level wm5102_dapm_standby SND_SOC_BIAS_PREPARE;
       hw_params SNDRV_PCM_STREAM_PLAYBACK (mk_hw_params 16 44100)]
      (rpi_cirrus_probe_world script) in
  let w := start [] in
  let w' := start [0; 0; 0; 0; 0; 0; 0; 0; 0; 0; 0; - EIO; 0; 7] in
  let res :=
    rpi_cirrus_hw_params scripted_codec SNDRV_PCM_STREAM_PLAYBACK
      (mk_hw_params 16 48000) w in
  let res' :=
    rpi_cirrus_hw_params scripted_codec SNDRV_PCM_STREAM_PLAYBACK
      (mk_hw_params 16 48000) w' in
  (fll1_freq (priv w) = 45158400 /\ card_rate (priv w) = 44100 /\
   fll1_freq (priv w') = 45158400 /\ card_rate (priv w') = 44100) /\
  (issued w (snd res) =
     [(snd_soc_dai_set_bclk_ratio bcm_i2s_dai 32, 0);
      (snd_soc_dai_set_tdm_slot wm5102_codec_dai 3 3 2 16, 0);
      (snd_soc_dai_set_pll wm8804_dai 0 0 12000000 12288000, 0);
      (snd_soc_dai_set_sysclk wm8804_dai WM8804_TX_CLKSRC_PLL 12288000 0, 0);
      (snd_soc_component_set_sysclk ARIZONA_CLK_SRC_FLL1 49152000, 0);
      (fll1_off, 0); (fll1_refclk_off, 0); (fll1_local 49152000, 0)] /\
   fst res = 0 /\
   card_rate (priv (snd res)) = 48000 /\
   fll1_freq (priv (snd res)) = 49152000 /\
   params_set (priv (snd res)) = 1) /\
  (issued w' (snd res') =
     [(snd_soc_dai_set_bclk_ratio bcm_i2s_dai 32, 0);
      (snd_soc_dai_set_tdm_slot wm5102_codec_dai 3 3 2 16, 0);
      (snd_soc_dai_set_pll wm8804_dai 0 0 12000000 12288000, 0);
      (snd_soc_dai_set_sysclk wm8804_dai WM8804_TX_CLKSRC_PLL 12288000 0, 0);
      (snd_soc_component_set_sysclk ARIZONA_CLK_SRC_FLL1 49152000, 0);
      (fll1_off, - EIO); (fll1_refclk_off, 0)] /\
   fst res' = 0 /\
   codec (snd res') = [7] /\
   (In fll1_off (calls (issued w' (snd res'))) <->
    0 < fll1_freq (priv w') /\ fll1_freq (priv w') <> 49152000)).
Proof.
  cbv zeta. split; [repeat split |].
  split.
  - match goal with
    | |- context [rpi_cirrus_hw_params _ ?s ?params ?w] =>
        destruct (rpi_cirrus_hw_params_spec scripted_codec w s params)
          as [Hlog [_ [_ [Hok _]]]]; [vm_compute; split; [discriminate | reflexivity] |];
        destruct (Hok eq_refl) as [_ [Hret [Hpriv _]]]
    end.
    split; [exact Hlog |].
    split; [exact Hret |].
    rewrite Hpriv. repeat split.
  - match goal with
    | |- context [rpi_cirrus_hw_params _ ?s ?params ?w] =>
        destruct (rpi_cirrus_hw_params_spec scripted_codec w s params)
          as [Hlog [Hret [Hdev [_ [_ [Hfll _]]]]]];
          [vm_compute; split; [discriminate | reflexivity] |];
        destruct (Hfll eq_refl eq_refl (fun _ => conj eq_refl eq_refl) eq_refl)
          as [Hoff _]
    end.
    split; [exact Hlog |].
    split; [exact Hret | split; [exact Hdev | exact Hoff]].
Defined.




Lemma rpi_cirrus_hw_free_spec_witness :
  let w := rpi_cirrus_probe_world [0; 0; 0; 0; 0; 0; 0; 0; 0; 0; - EIO; 7] in
  let w2 := run_entries scripted_codec
              [hw_params SNDRV_PCM_STREAM_PLAYBACK (mk_hw_params 16 44100);
               hw_params SNDRV_PCM_STREAM_CAPTURE (mk_hw_params 16 44100)] w in
  let w3 := snd (rpi_cirrus_hw_free scripted_codec SNDRV_PCM_STREAM_PLAYBACK w2) in
  let w4 := snd (rpi_cirrus_hw_free scripted_codec SNDRV_PCM_STREAM_CAPTURE w3) in
  (params_set (priv w) = 0 /\ all_ok (issued w w2) = true) /\
  (issued w2 w3 = [] /\ codec w3 = [- EIO; 7]) /\
  issued w3 w4 = [(snd_soc_component_set_sysclk ARIZONA_CLK_SRC_FLL1 0, - EIO)] /\
  codec w4 = [7].
Proof.
  cbv zeta. split; [split; reflexivity |].
  destruct (rpi_cirrus_hw_free_spec scripted_codec
              (rpi_cirrus_probe_world [0; 0; 0; 0; 0; 0; 0; 0; 0; 0; - EIO; 7])
              SNDRV_PCM_STREAM_PLAYBACK)
    as [_ [_ [_ [_ [_ [_ [_ [_ Hscenario]]]]]]]].
  exact (Hscenario (mk_hw_params 16 44100) (mk_hw_params 16 44100) eq_refl eq_refl).
Defined.



(** C8, as stated, fails: in [hw_params] at 48000 Hz with FLL1 local at
    45158400 Hz, the clear succeeds and the following FLL1 call fails; the
    FLL is then off in hardware, and [fll1_freq] still holds 45158400. *)
Lemma hw_params_failed_retune_keeps_stale_fll1_freq :
  let w := run_entries scripted_codec
             [set_bias_level wm5102_dapm_standby SND_SOC_BIAS_PREPARE]
             (rpi_cirrus_probe_world [0; 0; 0; 0; 0; 0; 0; 0; - EIO]) in
  let res := rpi_cirrus_hw_params scripted_codec SNDRV_PCM_STREAM_PLAYBACK
               (mk_hw_params 16 48000) w in
  fll1_freq (priv w) = 45158400 /\
  skipn 5 (issued w (snd res)) =
    [(fll1_off, 0); (fll1_refclk_off, 0); (fll1_local 49152000, - EIO)] /\
  fll1_freq (priv (snd res)) = 45158400 /\
  fll1_freq (priv (snd res)) <> 0.
Proof.
  cbv zeta. repeat split. vm_compute. discriminate.
Qed.

Lemma failed_call_keeps_clock_state_witness :
  let w := run_entries scripted_codec
             [set_bias_level wm5102_dapm_standby SND_SOC_BIAS_PREPARE]
             (rpi_cirrus_probe_world [0; 0; 0; 0; 0; 0; 0; 0; - EIO]) in
  let e := hw_params SNDRV_PCM_STREAM_PLAYBACK (mk_hw_params 16 48000) in
  let w' := snd (run_entry scripted_codec e w) in
  all_ok (issued w w') = false /\
  fll1_freq (priv w') = fll1_freq (priv w) /\
  priv w' = priv w.
Proof.
  cbv zeta. split; [reflexivity |].
  match goal with
  | |- context [run_entry _ ?e ?w] =>
      destruct (failed_call_keeps_clock_state scripted_codec e w eq_refl)
        as [Hfll [_ [_ Hpriv]]]
  end.
  split; [exact Hfll |].
  apply Hpriv. intros substream. discriminate.
Defined.

(** ** C9: the rate control put callbacks *)

(** Both put callbacks report a change exactly when the written index
    differs from the stored one, and in every case leave the written index
    in the driver data, whatever its value. *)
Lemma rpi_cirrus_rate_put_stores_item
    {codec_state : Type} (w : world codec_state) (item0 : Z) :
  let min_put := rpi_cirrus_min_rate_put item0 w in
  let max_put := rpi_cirrus_max_rate_put item0 w in
  fst min_put = (if min_rate_idx (priv w) =? item0 then 0 else 1) /\
  min_rate_idx (priv (snd min_put)) = item0 /\
  fst max_put = (if max_rate_idx (priv w) =? item0 then 0 else 1) /\
  max_rate_idx (priv (snd max_put)) = item0.
Proof.
  destruct w as [p d h l]. cbv zeta.
  unfold rpi_cirrus_min_rate_put, rpi_cirrus_max_rate_put,
    bind, pure, get_priv, update_priv.
  cbn [priv].
  destruct (Z.eqb_spec (min_rate_idx p) item0) as [Emin | Emin];
    destruct (Z.eqb_spec (max_rate_idx p) item0) as [Emax | Emax];
    cbn; auto.
Qed.

(** C9: writing index 5 to either rate control reports a change and stores
    5 as it is: the index is neither clamped to 2, the last entry of the
    three-entry table, nor rejected, and [rpi_cirrus_startup] would then
    read past the end of the table.  (The info callbacks do clamp the item
    they are asked about.) *)
Theorem rpi_cirrus_rate_put_out_of_range :
  let w := rpi_cirrus_probe_world (@nil Z) in
  let min_put := rpi_cirrus_min_rate_put 5 w in
  let max_put := rpi_cirrus_max_rate_put 5 w in
  fst min_put = 1 /\ min_rate_idx (priv (snd min_put)) = 5 /\
  fst max_put = 1 /\ max_rate_idx (priv (snd max_put)) = 5 /\
  min_rate_at 5 = None /\ max_rate_at 5 = None /\
  rpi_cirrus_min_rate_info 5 = 2 /\ rpi_cirrus_max_rate_info 5 = 2.
Proof.
  cbv zeta. repeat split.
Qed.

(** ** C10: the status [hw_params] returns when the FLL change fails *)

(** C10: with FLL1 local at 45158400 Hz, a negotiation at 48000 Hz whose
    first FLL disable call fails with [-EIO] returns 0; [card_rate] and
    [params_set] are as at entry.  The same holds when the clear succeeds
    and the following FLL1 call fails. *)
Theorem rpi_cirrus_hw_params_fll_failure_returns_0 :
  let prepared script :=
    run_entries scripted_codec
      [set_bias_level wm5102_dapm_standby SND_SOC_BIAS_PREPARE]
      (rpi_cirrus_probe_world (0 :: script)) in
  let negotiate script :=
    rpi_cirrus_hw_params scripted_codec SNDRV_PCM_STREAM_PLAYBACK
      (mk_hw_params 16 48000) (prepared script) in
  let clear_fails := negotiate [0; 0; 0; 0; 0; - EIO; 0] in
  let set_fails := negotiate [0; 0; 0; 0; 0; 0; 0; - EIO] in
  (In (fll1_off, - EIO) (log (snd clear_fails)) /\
   fst clear_fails = 0 /\
   card_rate (priv (snd clear_fails)) = 44100 /\
   params_set (priv (snd clear_fails)) = 0) /\
  (In (fll1_local 49152000, - EIO) (log (snd set_fails)) /\
   fst set_fails = 0 /\
   card_rate (priv (snd set_fails)) = 44100 /\
   params_set (priv (snd set_fails)) = 0).
Proof.
  cbv zeta. split; (split; [vm_compute; tauto | repeat split]).
Qed.

(** * Stream open and the enumerated controls *)

(** X11: with both rate indices inside their tables, [rpi_cirrus_startup]
    reads no table entry out of bounds; it applies no constraint exactly
    when both limits are "off"; and any window it applies is not empty:
    its lower end is the selected minimum rate, its upper end the selected
    maximum rate or, when the maximum is "off", [UINT_MAX]. *)
Theorem rpi_cirrus_startup_window (p : rpi_cirrus_priv) :
  0 <= min_rate_idx p < NUM_MIN_RATES ->
  0 <= max_rate_idx p < NUM_MAX_RATES ->
  exists r,
    rpi_cirrus_startup p = Some r /\
    (r = None <-> min_rate_idx p = 0 /\ max_rate_idx p = 0) /\
    (forall lo hi, r = Some (lo, hi) ->
       lo <= hi /\
       min_rate_at (min_rate_idx p) = Some lo /\
       (max_rate_idx p = 0 -> hi = UINT_MAX) /\
       (max_rate_idx p <> 0 -> max_rate_at (max_rate_idx p) = Some hi)).
Proof.
  unfold NUM_MIN_RATES, NUM_MAX_RATES. cbn [length min_rates max_rates Z.of_nat].
  intros Hmin Hmax. unfold rpi_cirrus_startup.
  assert (Emin : min_rate_idx p = 0 \/ min_rate_idx p = 1 \/ min_rate_idx p = 2) by lia.
  assert (Emax : max_rate_idx p = 0 \/ max_rate_idx p = 1 \/ max_rate_idx p = 2) by lia.
  destruct Emin as [Emin | [Emin | Emin]]; destruct Emax as [Emax | [Emax | Emax]];
    rewrite Emin, Emax; cbn;
    eexists; (split; [reflexivity |]);
    (split; [split; [intros H; try discriminate H; auto | intros [H1 H2]; try lia; auto] |]);
    intros lo hi H; try discriminate H; injection H as <- <-;
    unfold UINT_MAX; repeat split; auto; try lia; intros; try lia; try contradiction.
Qed.

Lemma rpi_cirrus_startup_window_witness :
  (0 <= min_rate_idx rpi_cirrus_probe_priv < NUM_MIN_RATES /\
   0 <= max_rate_idx rpi_cirrus_probe_priv < NUM_MAX_RATES) /\
  rpi_cirrus_startup rpi_cirrus_probe_priv = Some (Some (32000, UINT_MAX)) /\
  32000 <= UINT_MAX.
Proof.
  assert (Hmin : 0 <= min_rate_idx rpi_cirrus_probe_priv < NUM_MIN_RATES)
    by (vm_compute; split; [discriminate | reflexivity]).
  assert (Hmax : 0 <= max_rate_idx rpi_cirrus_probe_priv < NUM_MAX_RATES)
    by (vm_compute; split; [discriminate | reflexivity]).
  split; [split; assumption |].
  destruct (rpi_cirrus_startup_window rpi_cirrus_probe_priv Hmin Hmax)
    as [r [Hr [_ Hwin]]].
  assert (Er : r = Some (32000, UINT_MAX)).
  { change (rpi_cirrus_startup rpi_cirrus_probe_priv)
      with (Some (Some (32000, UINT_MAX))) in Hr.
    injection Hr as Hr. symmetry. exact Hr. }
  split; [rewrite Hr, Er; reflexivity |].
  exact (proj1 (Hwin 32000 UINT_MAX Er)).
Defined.

(** X12: whatever item an info callback is asked about, the name it copies
    is an entry of its table: items past the end are given the name of the
    last entry, items inside the table their own. *)
Theorem info_names_in_bounds (item : Z) :
  0 <= item ->
  min_rate_info_name item =
    nth_error Texts.min_rate_texts (Z.to_nat (Z.min item 2)) /\
  max_rate_info_name item =
    nth_error Texts.max_rate_texts (Z.to_nat (Z.min item 2)) /\
  recovered_frequency_info_name item =
    nth_error Texts.recovered_frequency_texts (Z.to_nat (Z.min item 3)) /\
  min_rate_info_name item <> None /\
  max_rate_info_name item <> None /\
  recovered_frequency_info_name item <> None.
Proof.
  intros Hitem.
  assert (Ei : item = 0 \/ item = 1 \/ item = 2 \/ item = 3 \/ 4 <= item) by lia.
  destruct Ei as [Ei | [Ei | [Ei | [Ei | Ei]]]];
    try (subst item; repeat split; intros H; vm_compute in H; discriminate H).
  unfold min_rate_info_name, max_rate_info_name, recovered_frequency_info_name,
    rpi_cirrus_min_rate_info, rpi_cirrus_max_rate_info,
    rpi_cirrus_recovered_frequency_info.
  change NUM_MIN_RATES with 3. change NUM_MAX_RATES with 3.
  change NUM_RECOVERED_FREQUENCIES with 4.
  rewrite (proj2 (Z.leb_le 3 item)) by lia.
  rewrite (proj2 (Z.leb_le 4 item)) by lia.
  rewrite (Z.min_r item 2), (Z.min_r item 3) by lia.
  repeat split; intros H; vm_compute in H; discriminate H.
Qed.

Lemma info_names_in_bounds_witness :
  min_rate_info_name 7 = nth_error Texts.min_rate_texts 2 /\
  recovered_frequency_info_name 7 = nth_error Texts.recovered_frequency_texts 3.
Proof.
  destruct (info_names_in_bounds 7) as [Hmin [_ [Hrec _]]];
    [vm_compute; discriminate |].
  split; [exact Hmin | exact Hrec].
Defined.

(** X13: a rate control reads back the index last written to it; writing
    the same index again reports no change and changes nothing; and
    writing one of the two controls leaves the other and the clock state
    alone. *)
Theorem rate_put_then_get
    {codec_state : Type} (w : world codec_state) (item0 : Z) :
  let wmin := snd (rpi_cirrus_min_rate_put item0 w) in
  let wmax := snd (rpi_cirrus_max_rate_put item0 w) in
  rpi_cirrus_min_rate_get wmin = (item0, wmin) /\
  rpi_cirrus_max_rate_get wmax = (item0, wmax) /\
  rpi_cirrus_min_rate_put item0 wmin = (0, wmin) /\
  rpi_cirrus_max_rate_put item0 wmax = (0, wmax) /\
  priv wmin = set_min_rate_idx item0 (priv w) /\
  priv wmax = set_max_rate_idx item0 (priv w) /\
  (codec wmin = codec w /\ log wmin = log w) /\
  (codec wmax = codec w /\ log wmax = log w).
Proof.
  destruct w as [p d h l]. destruct p as [cr sy fl ps mi ma ie]. cbv zeta.
  unfold rpi_cirrus_min_rate_put, rpi_cirrus_max_rate_put,
    rpi_cirrus_min_rate_get, rpi_cirrus_max_rate_get,
    bind, pure, get_priv, update_priv.
  cbn [priv min_rate_idx max_rate_idx].
  destruct (Z.eqb_spec mi item0) as [Emin | Emin];
    destruct (Z.eqb_spec ma item0) as [Emax | Emax];
    cbn; subst; rewrite ?Z.eqb_refl; cbn; repeat split; reflexivity.
Qed.

(** * The IEC958 controls and codec initialisation *)

Lemma land_mask_idem (v m : Z) : Z.land (Z.land v m) m = Z.land v m.
Proof.
  rewrite <- Z.land_assoc, Z.land_diag. reflexivity.
Qed.

Lemma testbit_small (x k n : Z) :
  0 <= x < 2 ^ k -> 0 <= k <= n -> Z.testbit x n = false.
Proof.
  intros Hx Hk. destruct (Z.eq_dec x 0) as [-> | Hnz].
  - apply Z.testbit_0_l.
  - apply Z.bits_above_log2; [lia |].
    assert (Z.log2 x < k) by (apply Z.log2_lt_pow2; lia). lia.
Qed.

Lemma land_255_testbit (x n : Z) :
  0 <= n -> Z.testbit (Z.land x 255) n = Z.testbit x n && (n <? 8).
Proof.
  intros Hn. change 255 with (Z.ones 8). rewrite Z.land_spec.
  destruct (Z.ltb_spec n 8).
  - rewrite Z.ones_spec_low by lia. reflexivity.
  - rewrite Z.ones_spec_high by lia. reflexivity.
Qed.

(** The three fields packed by [SPDIF_FLAG_CTRL] come back unchanged. *)
Lemma SPDIF_FLAG_CTRL_fields (bit reg invert : Z) :
  0 <= bit < 256 -> 0 <= reg < 256 -> 0 <= invert < 256 ->
  let private_value := SPDIF_FLAG_CTRL bit reg invert in
  Z.land private_value 255 = bit /\
  Z.land (Z.shiftr private_value 8) 255 = reg /\
  Z.land (Z.shiftr private_value 16) 255 = invert.
Proof.
  intros Hb Hr Hi. cbv zeta. unfold SPDIF_FLAG_CTRL.
  repeat split; apply Z.bits_inj'; intros n Hn;
    rewrite land_255_testbit by lia;
    rewrite ?Z.shiftr_spec by lia;
    rewrite !Z.lor_spec, !Z.shiftl_spec by lia;
    destruct (Z.ltb_spec n 8) as [Hlt | Hge];
    rewrite ?andb_true_r, ?andb_false_r.
  - rewrite (Z.testbit_neg_r reg (n - 8)), (Z.testbit_neg_r invert (n - 16)) by lia.
    rewrite !orb_false_r. reflexivity.
  - symmetry. apply (testbit_small bit 8); lia.
  - replace (n + 8 - 8) with n by lia.
    rewrite (testbit_small bit 8 (n + 8)) by lia.
    rewrite (Z.testbit_neg_r invert (n + 8 - 16)) by lia.
    rewrite orb_false_r. reflexivity.
  - symmetry. apply (testbit_small reg 8); lia.
  - replace (n + 16 - 16) with n by lia.
    rewrite (testbit_small bit 8 (n + 16)) by lia.
    rewrite (testbit_small reg 8 (n + 16 - 8)) by lia.
    reflexivity.
  - symmetry. apply (testbit_small invert 8); lia.
Qed.

Lemma land_bit_truthy (val bit : Z) :
  0 <= bit -> truthy (Z.land val (Z.shiftl 1 bit)) = Z.testbit val bit.
Proof.
  intros Hb. rewrite Z.shiftl_1_l. unfold truthy.
  destruct (Z.testbit val bit) eqn:Hbit.
  - destruct (Z.eqb_spec (Z.land val (2 ^ bit)) 0) as [E | E]; [| reflexivity].
    assert (Ht : Z.testbit (Z.land val (2 ^ bit)) bit = true).
    { rewrite Z.land_spec, Hbit, Z.pow2_bits_true by lia. reflexivity. }
    rewrite E, Z.testbit_0_l in Ht. discriminate Ht.
  - destruct (Z.eqb_spec (Z.land val (2 ^ bit)) 0) as [E | E]; [reflexivity |].
    exfalso. apply E. apply Z.bits_inj'. intros n Hn.
    rewrite Z.land_spec, Z.testbit_0_l, Z.pow2_bits_eqb by lia.
    destruct (Z.eqb_spec bit n) as [-> | Hne];
      [rewrite Hbit; reflexivity | apply andb_false_r].
Qed.

Lemma skipn_length_app_app {A : Type} (l a b : list A) :
  skipn (length (l ++ a)) (l ++ a ++ b) = b.
Proof.
  rewrite app_assoc. apply skipn_length_app.
Qed.

Section CardProperties.

Context {codec_state : Type}.
Variable codec_op_call : codec_state -> codec_op -> Z * codec_state.
Variable hdr : codec_headers.

Lemma op_eq (o : codec_op) (x : card codec_state) :
  op codec_op_call o x =
  (op_status codec_op_call (codec (clk x)) o,
   mk_card (mk_world (priv (clk x)) (rpi_cirrus_dai_link2_params (clk x))
                     (op_after codec_op_call (codec (clk x)) o) (log (clk x)))
           (ops x ++ [(o, op_status codec_op_call (codec (clk x)) o)])).
Proof.
  unfold op, op_status, op_after.
  destruct (codec_op_call (codec (clk x)) o); reflexivity.
Qed.

Ltac card_cbn :=
  cbn -[Z.mul Z.opp Z.lor Z.land Z.shiftl Z.shiftr Z.lnot Z.ltb Z.leb Z.eqb
        Z.pow Z.modulo Z.add to_uint to_int calc_sysclk truthy iec958_mask
        array_get array_set].

Ltac card_run :=
  unfold rpi_cirrus_spdif_playback_get, rpi_cirrus_spdif_playback_put,
    rpi_cirrus_spdif_capture_get, rpi_cirrus_spdif_status_flag_get,
    rpi_cirrus_recovered_frequency_get, rpi_cirrus_init_wm5102,
    rpi_cirrus_init_wm8804;
  cbn [for_loop];
  unfold bind, pure, card_priv, card_update_priv;
  card_cbn; repeat (rewrite op_eq; card_cbn).

Ltac performed_run :=
  unfold performed; cbn [ops];
  rewrite <- ?app_assoc;
  repeat (progress (rewrite ?skipn_length_app_app, ?skipn_length_app,
                      ?skipn_length_self;
                    cbn [app map fst snd])).

(** X14: the capture view reads the four receive channel-status registers
    once each, in order, each from the device in the state the read
    before left it in, and returns the four values the device answered,
    each under its mask (0xff, and 0x3f for byte 3): every byte it returns
    is unchanged by the mask the mask view reports.  It writes nothing. *)
Theorem rpi_cirrus_spdif_capture_get_masked (x : card codec_state) :
  let res := rpi_cirrus_spdif_capture_get codec_op_call hdr x in
  let read i := snd_soc_component_read wm8804_component (WM8804_RXCHAN1 hdr + i) in
  let h := codec (clk x) in
  let v0 := op_status codec_op_call h (read 0) in
  let h0 := op_after codec_op_call h (read 0) in
  let v1 := op_status codec_op_call h0 (read 1) in
  let h1 := op_after codec_op_call h0 (read 1) in
  let v2 := op_status codec_op_call h1 (read 2) in
  let h2 := op_after codec_op_call h1 (read 2) in
  let v3 := op_status codec_op_call h2 (read 3) in
  let h3 := op_after codec_op_call h2 (read 3) in
  performed x (snd res) = [(read 0, v0); (read 1, v1); (read 2, v2); (read 3, v3)] /\
  fst res = [Z.land v0 255; Z.land v1 255; Z.land v2 255; Z.land v3 63] /\
  map (fun bm => Z.land (fst bm) (snd bm))
      (combine (fst res) rpi_cirrus_spdif_mask_get) = fst res /\
  codec (clk (snd res)) = h3 /\
  priv (clk (snd res)) = priv (clk x) /\
  log (clk (snd res)) = log (clk x).
Proof.
  destruct x as [[p d h l] o]. cbv zeta. card_run. performed_run.
  change (0 + 1) with 1. change (1 + 1) with 2. change (2 + 1) with 3.
  change (iec958_mask 0) with 255. change (iec958_mask 1) with 255.
  change (iec958_mask 2) with 255. change (iec958_mask 3) with 63.
  repeat split; try reflexivity.
  cbn [map combine fst snd rpi_cirrus_spdif_mask_get].
  rewrite !land_mask_idem. reflexivity.
Qed.

(** X15: for a flag control built by [SPDIF_FLAG_CTRL] from a bit number
    below 31 and a register and invert field below 256, the flag callback
    reads that register once and returns that bit of it as 0 or 1,
    inverted exactly when the invert field is not zero. *)
Theorem rpi_cirrus_spdif_status_flag_get_spec
    (x : card codec_state) (bit reg invert : Z) :
  0 <= bit < 31 -> 0 <= reg < 256 -> 0 <= invert < 256 ->
  let res :=
    rpi_cirrus_spdif_status_flag_get codec_op_call
      (SPDIF_FLAG_CTRL bit reg invert) x in
  let val := op_status codec_op_call (codec (clk x))
               (snd_soc_component_read wm8804_component reg) in
  performed x (snd res) = [(snd_soc_component_read wm8804_component reg, val)] /\
  fst res = (if xorb (Z.testbit val bit) (negb (invert =? 0)) then 1 else 0) /\
  priv (clk (snd res)) = priv (clk x).
Proof.
  intros Hb Hr Hi. cbv zeta.
  destruct (SPDIF_FLAG_CTRL_fields bit reg invert) as [Eb [Er Ei]]; try lia.
  cbv zeta in Eb, Er, Ei.
  destruct x as [[p d h l] o].
  unfold rpi_cirrus_spdif_status_flag_get. rewrite Eb, Er, Ei.
  unfold bind, pure. rewrite op_eq. card_cbn. performed_run.
  rewrite land_bit_truthy by lia. unfold truthy.
  repeat split.
  destruct (Z.testbit _ bit); destruct (invert =? 0); reflexivity.
Qed.

(** X16: the recovered-frequency control reads the S/PDIF status register
    once and returns its bits 5:4, a number from 0 to 3: always the index
    of an entry of [recovered_frequency_texts]. *)
Theorem rpi_cirrus_recovered_frequency_get_in_bounds (x : card codec_state) :
  let res := rpi_cirrus_recovered_frequency_get codec_op_call hdr x in
  let val := op_status codec_op_call (codec (clk x))
               (snd_soc_component_read wm8804_component (WM8804_SPDSTAT hdr)) in
  performed x (snd res) =
    [(snd_soc_component_read wm8804_component (WM8804_SPDSTAT hdr), val)] /\
  fst res = (val / 16) mod 4 /\
  0 <= fst res < NUM_RECOVERED_FREQUENCIES /\
  nth_error Texts.recovered_frequency_texts (Z.to_nat (fst res)) <> None.
Proof.
  destruct x as [[p d h l] o]. cbv zeta. card_run. performed_run.
  set (val := op_status codec_op_call h _).
  assert (Hland : Z.land (Z.shiftr val 4) 3 = (val / 16) mod 4).
  { change 3 with (Z.ones 2). rewrite Z.land_ones by lia.
    rewrite Z.shiftr_div_pow2 by lia. reflexivity. }
  rewrite Hland.
  assert (Hrange : 0 <= (val / 16) mod 4 < 4) by (apply Z.mod_pos_bound; lia).
  repeat split; try lia.
  apply nth_error_Some. cbn [length Texts.recovered_frequency_texts]. lia.
Qed.

Lemma length_4 (l : list Z) :
  length l = 4%nat -> exists a b c d, l = [a; b; c; d].
Proof.
  destruct l as [| a [| b [| c [| d [| e l]]]]]; try discriminate.
  intros _. exists a, b, c, d. reflexivity.
Qed.

Lemma array_4_get (a b c d : Z) :
  array_get [a; b; c; d] 0 = a /\ array_get [a; b; c; d] 1 = b /\
  array_get [a; b; c; d] 2 = c /\ array_get [a; b; c; d] 3 = d.
Proof.
  repeat split.
Qed.

Lemma array_4_set (a b c d v : Z) :
  array_set [a; b; c; d] 0 v = [v; b; c; d] /\
  array_set [a; b; c; d] 1 v = [a; v; c; d] /\
  array_set [a; b; c; d] 2 v = [a; b; v; d] /\
  array_set [a; b; c; d] 3 v = [a; b; c; v].
Proof.
  repeat split.
Qed.

(** Evaluate array indices and masks. *)
Ltac index_cbn :=
  change (0 + 1) with 1 in *; change (1 + 1) with 2 in *;
  change (2 + 1) with 3 in *;
  change (iec958_mask 0) with 255 in *; change (iec958_mask 1) with 255 in *;
  change (iec958_mask 2) with 255 in *; change (iec958_mask 3) with 63 in *;
  repeat match goal with
  | |- context [array_set [?a; ?b; ?c; ?d] 0 ?v] =>
      rewrite (proj1 (array_4_set a b c d v))
  | |- context [array_set [?a; ?b; ?c; ?d] 1 ?v] =>
      rewrite (proj1 (proj2 (array_4_set a b c d v)))
  | |- context [array_set [?a; ?b; ?c; ?d] 2 ?v] =>
      rewrite (proj1 (proj2 (proj2 (array_4_set a b c d v))))
  | |- context [array_set [?a; ?b; ?c; ?d] 3 ?v] =>
      rewrite (proj2 (proj2 (proj2 (array_4_set a b c d v))))
  | |- context [array_get [?a; ?b; ?c; ?d] 0] =>
      rewrite (proj1 (array_4_get a b c d))
  | |- context [array_get [?a; ?b; ?c; ?d] 1] =>
      rewrite (proj1 (proj2 (array_4_get a b c d)))
  | |- context [array_get [?a; ?b; ?c; ?d] 2] =>
      rewrite (proj1 (proj2 (proj2 (array_4_get a b c d))))
  | |- context [array_get [?a; ?b; ?c; ?d] 3] =>
      rewrite (proj2 (proj2 (proj2 (array_4_get a b c d))))
  end.

(** Split on the next byte comparison of the put callback. *)
Ltac byte_step :=
  match goal with
  | |- context [if negb (?a =? ?b) then _ else _] =>
      let E := fresh "E" in
      destruct (Z.eqb_spec a b) as [E | E]; cbn [negb orb]
  end;
  card_cbn; repeat (rewrite op_eq; card_cbn); index_cbn.

(** What one playback put does, byte by byte. *)
Lemma rpi_cirrus_spdif_playback_put_run
    (x : card codec_state) (ctrl_stat : list Z) :
  let p := priv (clk x) in
  let stat := iec958_status p in
  let masked i := Z.land (array_get ctrl_stat i) (iec958_mask i) in
  let differs i := negb (masked i =? Z.land (array_get stat i) (iec958_mask i)) in
  let res := rpi_cirrus_spdif_playback_put codec_op_call hdr ctrl_stat x in
  length stat = 4%nat ->
  fst res = (if existsb differs [0; 1; 2; 3] then 1 else 0) /\
  map fst (performed x (snd res)) =
    map (fun i => snd_soc_component_update_bits wm8804_component
                    (WM8804_SPDTX1 hdr + i) (iec958_mask i) (masked i))
        (filter differs [0; 1; 2; 3]) /\
  priv (clk (snd res)) =
    set_iec958_status
      (map (fun i => if differs i then masked i else array_get stat i) [0; 1; 2; 3])
      p /\
  log (clk (snd res)) = log (clk x) /\
  rpi_cirrus_dai_link2_params (clk (snd res)) = rpi_cirrus_dai_link2_params (clk x).
Proof.
  destruct x as [[p d h l] o]. destruct p as [cr sy fl ps mi ma ie].
  cbv zeta. cbn [priv clk iec958_status]. intros Hlen.
  destruct (length_4 ie Hlen) as [s0 [s1 [s2 [s3 ->]]]].
  card_run. cbn [map filter existsb]. index_cbn.
  repeat byte_step; cbn [map filter existsb fst]; index_cbn; performed_run;
    repeat split.
Qed.

(** The register updates of one playback put as the device sees them. *)
Lemma rpi_cirrus_spdif_playback_put_device
    (x : card codec_state) (ctrl_stat : list Z) :
  let p := priv (clk x) in
  let stat := iec958_status p in
  let masked i := Z.land (array_get ctrl_stat i) (iec958_mask i) in
  let differs i := negb (masked i =? Z.land (array_get stat i) (iec958_mask i)) in
  let updates :=
    map (fun i => snd_soc_component_update_bits wm8804_component
                    (WM8804_SPDTX1 hdr + i) (iec958_mask i) (masked i))
        (filter differs [0; 1; 2; 3]) in
  let res := rpi_cirrus_spdif_playback_put codec_op_call hdr ctrl_stat x in
  length stat = 4%nat ->
  performed x (snd res) = device_run codec_op_call (codec (clk x)) updates /\
  codec (clk (snd res)) = device_after codec_op_call (codec (clk x)) updates.
Proof.
  destruct x as [[p d h l] o]. destruct p as [cr sy fl ps mi ma ie].
  cbv zeta. cbn [priv clk codec iec958_status]. intros Hlen.
  destruct (length_4 ie Hlen) as [s0 [s1 [s2 [s3 ->]]]].
  card_run. cbn [map filter]. index_cbn.
  repeat byte_step; cbn [map filter device_run device_after]; index_cbn;
    performed_run; split; reflexivity.
Qed.

(** X17: a playback put of the channel status reports a change exactly when
    one of the four bytes differs from the cached byte under its mask
    (0xff, and 0x3f for byte 3); it writes exactly the differing bytes, in
    index order, each with one masked register update of the WM8804: the
    log gains these updates, each with the answer the device gave in the
    state the updates before left it in, and the device ends in the state
    after the last of them; and it leaves the clock state, the rate
    limits and the clock controller's log alone. *)
Theorem rpi_cirrus_spdif_playback_put_changed
    (x : card codec_state) (ctrl_stat : list Z) :
  let p := priv (clk x) in
  let stat := iec958_status p in
  let masked i := Z.land (array_get ctrl_stat i) (iec958_mask i) in
  let differs i := negb (masked i =? Z.land (array_get stat i) (iec958_mask i)) in
  let updates :=
    map (fun i => snd_soc_component_update_bits wm8804_component
                    (WM8804_SPDTX1 hdr + i) (iec958_mask i) (masked i))
        (filter differs [0; 1; 2; 3]) in
  let res := rpi_cirrus_spdif_playback_put codec_op_call hdr ctrl_stat x in
  let p' := priv (clk (snd res)) in
  length stat = 4%nat ->
  (fst res = 0 \/ fst res = 1) /\
  (fst res = 1 <->
   exists i, 0 <= i < 4 /\
             masked i <> Z.land (array_get stat i) (iec958_mask i)) /\
  performed x (snd res) = device_run codec_op_call (codec (clk x)) updates /\
  codec (clk (snd res)) = device_after codec_op_call (codec (clk x)) updates /\
  (card_rate p' = card_rate p /\ sync_path_enable p' = sync_path_enable p /\
   fll1_freq p' = fll1_freq p /\ params_set p' = params_set p /\
   min_rate_idx p' = min_rate_idx p /\ max_rate_idx p' = max_rate_idx p) /\
  log (clk (snd res)) = log (clk x).
Proof.
  cbv zeta. intros Hlen.
  destruct (rpi_cirrus_spdif_playback_put_run x ctrl_stat Hlen)
    as [Hret [_ [Hpriv [Hlog _]]]].
  destruct (rpi_cirrus_spdif_playback_put_device x ctrl_stat Hlen)
    as [Hops Hcodec].
  cbv zeta in Hret, Hops, Hcodec, Hpriv.
  split; [| split; [| split; [exact Hops | split; [exact Hcodec |
                                                    split; [| exact Hlog]]]]].
  - rewrite Hret. destruct (existsb _ _); auto.
  - rewrite Hret. split.
    + destruct (existsb _ _) eqn:Hex; [| discriminate].
      intros _. apply existsb_exists in Hex. destruct Hex as [i [Hin Hd]].
      exists i. split.
      * cbn [In] in Hin. lia.
      * apply negb_true_iff, Z.eqb_neq in Hd. exact Hd.
    + intros [i [Hi Hd]].
      assert (Hex : existsb
                (fun i => negb (Z.land (array_get ctrl_stat i) (iec958_mask i) =?
                                Z.land (array_get (iec958_status (priv (clk x))) i)
                                       (iec958_mask i)))
                [0; 1; 2; 3] = true).
      { apply existsb_exists. exists i. split.
        - cbn [In]. lia.
        - apply negb_true_iff, Z.eqb_neq. exact Hd. }
      rewrite Hex. reflexivity.
  - rewrite Hpriv. repeat split.
Qed.

(** X18: after a playback put, the playback get returns the four bytes
    that were written, each under its mask, provided the cached bytes were
    within their masks before (as codec initialisation leaves them); the
    get itself performs no operation and changes nothing. *)
Theorem rpi_cirrus_spdif_playback_put_get
    (x : card codec_state) (ctrl_stat : list Z) :
  let stat := iec958_status (priv (clk x)) in
  let x' := snd (rpi_cirrus_spdif_playback_put codec_op_call hdr ctrl_stat x) in
  stat = map (fun i => Z.land (array_get stat i) (iec958_mask i)) [0; 1; 2; 3] ->
  rpi_cirrus_spdif_playback_get x' =
  (map (fun i => Z.land (array_get ctrl_stat i) (iec958_mask i)) [0; 1; 2; 3], x').
Proof.
  cbv zeta. intros Hmasked.
  assert (Hlen : length (iec958_status (priv (clk x))) = 4%nat)
    by (rewrite Hmasked; reflexivity).
  destruct (rpi_cirrus_spdif_playback_put_run x ctrl_stat Hlen)
    as [_ [_ [Hpriv _]]].
  cbv zeta in Hpriv.
  set (x' := snd (rpi_cirrus_spdif_playback_put codec_op_call hdr ctrl_stat x)) in *.
  destruct x' as [[p' d' h' l'] o']. cbn [priv clk] in Hpriv.
  card_run. rewrite Hpriv. cbn [iec958_status set_iec958_status map].
  index_cbn. f_equal.
  destruct (length_4 _ Hlen) as [s0 [s1 [s2 [s3 Est]]]].
  rewrite Est in Hmasked |- *. cbn [map] in Hmasked. index_cbn.
  injection Hmasked as H0 H1 H2 H3.
  change (array_get [s0; s1; s2; s3] 0) with s0 in H0.
  change (array_get [s0; s1; s2; s3] 1) with s1 in H1.
  change (array_get [s0; s1; s2; s3] 2) with s2 in H2.
  change (array_get [s0; s1; s2; s3] 3) with s3 in H3.
  repeat match goal with
  | |- context [if negb (?a =? ?b) then _ else _] =>
      destruct (Z.eqb_spec a b); cbn [negb]
  end; congruence.
Qed.

(** X19: putting the same channel status a second time reports no change,
    writes no register and changes nothing. *)
Theorem rpi_cirrus_spdif_playback_put_twice
    (x : card codec_state) (ctrl_stat : list Z) :
  let x' := snd (rpi_cirrus_spdif_playback_put codec_op_call hdr ctrl_stat x) in
  length (iec958_status (priv (clk x))) = 4%nat ->
  rpi_cirrus_spdif_playback_put codec_op_call hdr ctrl_stat x' = (0, x').
Proof.
  cbv zeta. intros Hlen.
  destruct (rpi_cirrus_spdif_playback_put_run x ctrl_stat Hlen)
    as [_ [_ [Hpriv _]]].
  cbv zeta in Hpriv.
  set (x' := snd (rpi_cirrus_spdif_playback_put codec_op_call hdr ctrl_stat x)) in *.
  destruct x' as [[p' d' h' l'] o']. cbn [priv clk] in Hpriv.
  destruct (length_4 _ Hlen) as [s0 [s1 [s2 [s3 Est]]]].
  card_run. rewrite Hpriv, Est.
  cbn [iec958_status set_iec958_status map]. index_cbn.
  destruct (Z.eqb_spec (Z.land (array_get ctrl_stat 0) 255) (Z.land s0 255));
    destruct (Z.eqb_spec (Z.land (array_get ctrl_stat 1) 255) (Z.land s1 255));
    destruct (Z.eqb_spec (Z.land (array_get ctrl_stat 2) 255) (Z.land s2 255));
    destruct (Z.eqb_spec (Z.land (array_get ctrl_stat 3) 63) (Z.land s3 63));
    cbn [negb];
    repeat (progress
              (rewrite ?land_mask_idem, ?Z.eqb_refl;
               repeat match goal with
               | e : ?a = ?b |- context [?a =? ?b] =>
                   rewrite (proj2 (Z.eqb_eq a b) e)
               end;
               cbn [negb]; card_cbn; index_cbn));
    reflexivity.
Qed.

(** ** Codec initialisation *)

Ltac lift_run :=
  unfold lift, rpi_cirrus_clear_flls, rpi_cirrus_set_wm8804_pll, bind, pure;
  card_cbn;
  repeat (rewrite (hw_eq (clock_device codec_op_call)); card_cbn).

(** Split on whether the next answer under test is a failure. *)
Ltac answer_step :=
  unfold truthy;
  match goal with
  | E : ?r = 0 |- context [?r =? 0] => rewrite (proj2 (Z.eqb_eq r 0) E)
  | E : ?r <> 0 |- context [?r =? 0] => rewrite (proj2 (Z.eqb_neq r 0) E)
  | |- context [?r =? 0] =>
      let E := fresh "E" in destruct (Z.eqb_spec r 0) as [E | E]
  end;
  cbn [negb]; card_cbn;
  repeat (first [rewrite op_eq | rewrite (hw_eq (clock_device codec_op_call))];
          card_cbn).

Ltac answers_zero :=
  repeat match goal with
  | E : ?r = 0 |- context [?r] => rewrite E
  end.

Ltac issued_card :=
  unfold issued; card_cbn;
  repeat (progress (rewrite ?skipn_length_app, ?skipn_length_self; card_cbn)).

(** Device answers in one form: a clock call is the operation that wraps
    it. *)
Ltac device_cbn :=
  unfold op_status, op_after, status, after, clock_device in *.

(** X20: [rpi_cirrus_init_wm5102] always performs the same four operations
    in the same order (the 32 kHz clock source update, the two FLL disable
    calls, SYSCLK from FLL1 at frequency 0), whatever any of them answers;
    each is logged with the answer the device gave in the state the
    operations before left it in.  A failed FLL clear does not fail the
    initialisation: the function returns the answer of the device to the
    SYSCLK call.  The three clock calls join the clock controller's log;
    the driver data is not written. *)
Theorem rpi_cirrus_init_wm5102_spec (x : card codec_state) :
  let res := rpi_cirrus_init_wm5102 codec_op_call hdr x in
  let clk32k :=
    snd_soc_component_update_bits wm5102_component
      (ARIZONA_CLOCK_32K_1 hdr) (ARIZONA_CLK_32K_SRC_MASK hdr) 2 in
  let sysclk_off := snd_soc_component_set_sysclk ARIZONA_CLK_SRC_FLL1 0 in
  let h := codec (clk x) in
  let r0 := op_status codec_op_call h clk32k in
  let h0 := op_after codec_op_call h clk32k in
  let r1 := op_status codec_op_call h0 (clock_call fll1_off) in
  let h1 := op_after codec_op_call h0 (clock_call fll1_off) in
  let r2 := op_status codec_op_call h1 (clock_call fll1_refclk_off) in
  let h2 := op_after codec_op_call h1 (clock_call fll1_refclk_off) in
  let r3 := op_status codec_op_call h2 (clock_call sysclk_off) in
  let h3 := op_after codec_op_call h2 (clock_call sysclk_off) in
  performed x (snd res) =
    [(clk32k, r0); (clock_call fll1_off, r1); (clock_call fll1_refclk_off, r2);
     (clock_call sysclk_off, r3)] /\
  issued (clk x) (clk (snd res)) =
    [(fll1_off, r1); (fll1_refclk_off, r2); (sysclk_off, r3)] /\
  fst res = r3 /\
  codec (clk (snd res)) = h3 /\
  priv (clk (snd res)) = priv (clk x).
Proof.
  destruct x as [[p d h l] o]. cbv zeta.
  card_run. lift_run. unfold fll1_off, fll1_refclk_off. device_cbn.
  repeat (answer_step; device_cbn); issued_card; performed_run;
    rewrite <- ?app_assoc; rewrite ?skipn_length_app; cbn [app];
    repeat split; try reflexivity; congruence.
Qed.

(** The four transmit channel-status registers as [rpi_cirrus_init_wm8804]
    reads them, and what it leaves in the cache. *)
Lemma rpi_cirrus_init_wm8804_cache (x : card codec_state) :
  let res := rpi_cirrus_init_wm8804 codec_op_call hdr x in
  let p := priv (clk x) in
  let p' := priv (clk (snd res)) in
  length (iec958_status p) = 4%nat ->
  exists v0 v1 v2 v3 rdiv rest,
    performed x (snd res) =
      (snd_soc_component_read wm8804_component (WM8804_SPDTX1 hdr + 0), v0) ::
      (snd_soc_component_read wm8804_component (WM8804_SPDTX1 hdr + 1), v1) ::
      (snd_soc_component_read wm8804_component (WM8804_SPDTX1 hdr + 2), v2) ::
      (snd_soc_component_read wm8804_component (WM8804_SPDTX1 hdr + 3), v3) ::
      (snd_soc_dai_set_clkdiv wm8804_dai
         (WM8804_MCLK_DIV hdr) (WM8804_MCLKDIV_256FS hdr), rdiv) :: rest /\
    p' = set_iec958_status
           [Z.land v0 255; Z.land v1 255; Z.land v2 255; Z.land v3 63] p /\
    (rdiv <> 0 -> rest = [] /\ fst res = rdiv) /\
    (rdiv = 0 ->
     exists rout rpll tail,
       rest =
         (clock_call (snd_soc_dai_set_sysclk wm8804_dai WM8804_CLKOUT_SRC_OSCCLK
                        12000000 0), rout) ::
         (clock_call (snd_soc_dai_set_pll wm8804_dai 0 0 12000000 11289600),
          rpll) :: tail /\
       (rpll <> 0 -> tail = [] /\ fst res = rpll) /\
       (rpll = 0 ->
        exists rmclk,
          tail = [(clock_call (snd_soc_dai_set_sysclk wm8804_dai
                                 WM8804_TX_CLKSRC_PLL 11289600 0), rmclk)] /\
          fst res = rmclk)).
Proof.
  destruct x as [[p d h l] o]. destruct p as [cr sy fl ps mi ma ie].
  cbv zeta. cbn [priv clk iec958_status]. intros Hlen.
  destruct (length_4 ie Hlen) as [s0 [s1 [s2 [s3 ->]]]].
  card_run. index_cbn. unfold set_iec958_status. cbn [card_rate sync_path_enable
    fll1_freq params_set min_rate_idx max_rate_idx].
  change (to_uint (RPI_CIRRUS_DEFAULT_RATE * 256)) with 11289600.
  change WM8804_CLKOUT_HZ with 12000000.
  lift_run.
  change (to_uint (RPI_CIRRUS_DEFAULT_RATE * 256)) with 11289600.
  change WM8804_CLKOUT_HZ with 12000000.
  repeat answer_step; issued_card; performed_run; answers_zero;
    do 6 eexists; (split; [reflexivity |]); (split; [reflexivity |]);
    (split;
     [ intros Hd; first [congruence | split; reflexivity]
     | intros Hd;
       first
         [ congruence
         | do 3 eexists; (split; [reflexivity |]);
           (split;
            [ intros Hp; first [congruence | split; reflexivity]
            | intros Hp; first [congruence | eexists; split; reflexivity] ]) ] ]).
Qed.

(** X21: [rpi_cirrus_init_wm8804] first reads the four transmit
    channel-status registers and sets the MCLK divider.  If the divider
    call fails it stops there and returns that status.  Otherwise it sets
    CLKOUT to the oscillator, then the PLL to 11289600 Hz (256 times the
    default rate) and, if that succeeded, MCLK to the PLL output; it
    returns the status of the last of these PLL calls, so the answer of
    the CLKOUT call never reaches the caller.  Every operation is logged
    with the answer the device gave in the state the operations before
    left it in, and the device ends in the state after the last one. *)
Theorem rpi_cirrus_init_wm8804_status (x : card codec_state) :
  let res := rpi_cirrus_init_wm8804 codec_op_call hdr x in
  let read i := snd_soc_component_read wm8804_component (WM8804_SPDTX1 hdr + i) in
  let clkdiv :=
    snd_soc_dai_set_clkdiv wm8804_dai
      (WM8804_MCLK_DIV hdr) (WM8804_MCLKDIV_256FS hdr) in
  let clkout :=
    clock_call (snd_soc_dai_set_sysclk wm8804_dai WM8804_CLKOUT_SRC_OSCCLK
                  12000000 0) in
  let pll := clock_call (snd_soc_dai_set_pll wm8804_dai 0 0 12000000 11289600) in
  let mclk :=
    clock_call (snd_soc_dai_set_sysclk wm8804_dai WM8804_TX_CLKSRC_PLL
                  11289600 0) in
  let h := codec (clk x) in
  let v0 := op_status codec_op_call h (read 0) in
  let h0 := op_after codec_op_call h (read 0) in
  let v1 := op_status codec_op_call h0 (read 1) in
  let h1 := op_after codec_op_call h0 (read 1) in
  let v2 := op_status codec_op_call h1 (read 2) in
  let h2 := op_after codec_op_call h1 (read 2) in
  let v3 := op_status codec_op_call h2 (read 3) in
  let h3 := op_after codec_op_call h2 (read 3) in
  let rdiv := op_status codec_op_call h3 clkdiv in
  let hdiv := op_after codec_op_call h3 clkdiv in
  let rout := op_status codec_op_call hdiv clkout in
  let hout := op_after codec_op_call hdiv clkout in
  let rpll := op_status codec_op_call hout pll in
  let hpll := op_after codec_op_call hout pll in
  let rmclk := op_status codec_op_call hpll mclk in
  let hmclk := op_after codec_op_call hpll mclk in
  performed x (snd res) =
    (read 0, v0) :: (read 1, v1) :: (read 2, v2) :: (read 3, v3) ::
    (clkdiv, rdiv) ::
    (if rdiv =? 0
     then (clkout, rout) :: (pll, rpll) ::
          (if rpll =? 0 then [(mclk, rmclk)] else [])
     else []) /\
  fst res = (if rdiv =? 0 then if rpll =? 0 then rmclk else rpll else rdiv) /\
  codec (clk (snd res)) =
    (if rdiv =? 0 then if rpll =? 0 then hmclk else hpll else hdiv).
Proof.
  destruct x as [[p d h l] o]. cbv zeta. cbn [priv clk codec].
  card_run.
  change (0 + 1) with 1. change (1 + 1) with 2. change (2 + 1) with 3.
  change (to_uint (RPI_CIRRUS_DEFAULT_RATE * 256)) with 11289600.
  change WM8804_CLKOUT_HZ with 12000000.
  lift_run.
  change (to_uint (RPI_CIRRUS_DEFAULT_RATE * 256)) with 11289600.
  change WM8804_CLKOUT_HZ with 12000000.
  device_cbn.
  repeat (answer_step; device_cbn); issued_card; performed_run;
    rewrite <- ?app_assoc; rewrite ?skipn_length_app; cbn [app];
    repeat split; try reflexivity; congruence.
Qed.

(** X22: the cached channel status is always within the masks once the
    WM8804 has been initialised: [rpi_cirrus_init_wm8804] fills the cache
    with the four register values it read, each under its mask (0xff, and
    0x3f for byte 3), and a playback put keeps every cached byte within
    its mask.  Neither writes any other field of the driver data. *)
Theorem iec958_status_within_masks (x : card codec_state) (ctrl_stat : list Z) :
  let within st :=
    st = map (fun i => Z.land (array_get st i) (iec958_mask i)) [0; 1; 2; 3] in
  let x0 := snd (rpi_cirrus_init_wm8804 codec_op_call hdr x) in
  let x1 := snd (rpi_cirrus_spdif_playback_put codec_op_call hdr ctrl_stat x) in
  let p := priv (clk x) in
  (length (iec958_status p) = 4%nat ->
   within (iec958_status (priv (clk x0))) /\
   iec958_status (priv (clk x0)) =
     map (fun iv => Z.land (snd iv) (iec958_mask (fst iv)))
         (combine [0; 1; 2; 3] (map snd (firstn 4 (performed x x0)))) /\
   priv (clk x0) = set_iec958_status (iec958_status (priv (clk x0))) p) /\
  (within (iec958_status p) ->
   within (iec958_status (priv (clk x1))) /\
   priv (clk x1) = set_iec958_status (iec958_status (priv (clk x1))) p).
Proof.
  cbv zeta. split.
  - intros Hlen.
    destruct (rpi_cirrus_init_wm8804_cache x Hlen)
      as [v0 [v1 [v2 [v3 [rdiv [rest [Hdone [Hpriv _]]]]]]]].
    cbv zeta in Hdone, Hpriv. rewrite Hdone, Hpriv.
    cbn [iec958_status set_iec958_status map firstn combine fst snd].
    index_cbn. rewrite !land_mask_idem. repeat split.
  - intros Hwithin.
    assert (Hlen : length (iec958_status (priv (clk x))) = 4%nat)
      by (rewrite Hwithin; reflexivity).
    destruct (rpi_cirrus_spdif_playback_put_run x ctrl_stat Hlen)
      as [_ [_ [Hpriv _]]].
    cbv zeta in Hpriv. rewrite Hpriv.
    cbn [iec958_status set_iec958_status].
    split; [| reflexivity].
    destruct (length_4 _ Hlen) as [s0 [s1 [s2 [s3 Est]]]].
    rewrite Est in Hwithin |- *. cbn [map] in Hwithin |- *.
    injection Hwithin as H0 H1 H2 H3.
    change (array_get [s0; s1; s2; s3] 0) with s0 in H0.
    change (array_get [s0; s1; s2; s3] 1) with s1 in H1.
    change (array_get [s0; s1; s2; s3] 2) with s2 in H2.
    change (array_get [s0; s1; s2; s3] 3) with s3 in H3.
    index_cbn.
    repeat match goal with
    | |- context [if negb (?a =? ?b) then _ else _] =>
        destruct (Z.eqb_spec a b); cbn [negb]
    end;
    index_cbn; rewrite ?land_mask_idem; congruence.
Qed.

End CardProperties.

(** * Concrete runs of the further properties *)

Lemma local_fll1_freq_matches_card_rate_witness :
  let p := priv (run_entries scripted_codec
                   [set_bias_level wm5102_dapm_standby SND_SOC_BIAS_PREPARE]
                   (rpi_cirrus_probe_world [])) in
  0 < fll1_freq p /\ fll1_freq p = calc_sysclk (card_rate p).
Proof.
  cbv zeta. split; [reflexivity |].
  apply (local_fll1_freq_matches_card_rate scripted_codec []
           [set_bias_level wm5102_dapm_standby SND_SOC_BIAS_PREPARE]).
  reflexivity.
Defined.

Lemma rpi_cirrus_hw_params_keeps_referenced_fll_witness :
  let w := snd (rpi_cirrus_spdif_rx_enable_event scripted_codec
                  SND_SOC_DAPM_POST_PMU (rpi_cirrus_probe_world [])) in
  let w' := snd (rpi_cirrus_hw_params scripted_codec SNDRV_PCM_STREAM_CAPTURE
                   (mk_hw_params 16 48000) w) in
  fll1_freq (priv w) <= 0 /\
  fll1_freq (priv w') = - 45158400 /\
  card_rate (priv w') = 48000.
Proof.
  cbv zeta.
  assert (Hfl : fll1_freq
                  (priv (snd (rpi_cirrus_spdif_rx_enable_event scripted_codec
                                SND_SOC_DAPM_POST_PMU
                                (rpi_cirrus_probe_world (@nil Z))))) <= 0)
    by (vm_compute; discriminate).
  split; [exact Hfl |].
  destruct (rpi_cirrus_hw_params_keeps_referenced_fll scripted_codec
              (snd (rpi_cirrus_spdif_rx_enable_event scripted_codec
                      SND_SOC_DAPM_POST_PMU (rpi_cirrus_probe_world [])))
              SNDRV_PCM_STREAM_CAPTURE (mk_hw_params 16 48000))
    as [_ Hkeep].
  destruct (Hkeep Hfl) as [_ Hsame].
  split; [rewrite Hsame; reflexivity | reflexivity].
Defined.

Lemma prepare_after_spdif_rx_enabled_witness :
  let up := rpi_cirrus_spdif_rx_enable_event scripted_codec SND_SOC_DAPM_POST_PMU
              (rpi_cirrus_probe_world []) in
  fst up = 0 /\
  rpi_cirrus_set_bias_level scripted_codec wm5102_dapm_standby
    SND_SOC_BIAS_PREPARE (snd up) = (0, snd up).
Proof.
  cbv zeta. split; [reflexivity |].
  apply (prepare_after_spdif_rx_enabled scripted_codec
           (rpi_cirrus_probe_world []) wm5102_dapm_standby).
  reflexivity.
Defined.

Lemma rpi_cirrus_hw_params_then_free_witness :
  let w := rpi_cirrus_probe_world [0; 0; 0; 0; 0; - EIO; 7] in
  let w1 := snd (rpi_cirrus_hw_params scripted_codec SNDRV_PCM_STREAM_PLAYBACK
                   (mk_hw_params 16 44100) w) in
  let w2 := snd (rpi_cirrus_hw_free scripted_codec SNDRV_PCM_STREAM_PLAYBACK w1) in
  (0 <= params_set (priv w) < 2 ^ 32 /\
   Z.testbit (params_set (priv w)) (stream SNDRV_PCM_STREAM_PLAYBACK) = false /\
   all_ok (issued w w1) = true) /\
  params_set (priv w1) = 1 /\
  params_set (priv w2) = 0 /\
  issued w1 w2 = [(snd_soc_component_set_sysclk ARIZONA_CLK_SRC_FLL1 0, - EIO)] /\
  codec w2 = [7].
Proof.
  cbv zeta.
  assert (Hps : 0 <= params_set
                       (priv (rpi_cirrus_probe_world [0; 0; 0; 0; 0; - EIO; 7]))
                < 2 ^ 32)
    by (vm_compute; split; [discriminate | reflexivity]).
  split; [split; [exact Hps | split; reflexivity] |].
  split; [reflexivity |].
  exact (rpi_cirrus_hw_params_then_free scripted_codec
           (rpi_cirrus_probe_world [0; 0; 0; 0; 0; - EIO; 7])
           SNDRV_PCM_STREAM_PLAYBACK (mk_hw_params 16 44100) Hps eq_refl eq_refl).
Defined.

Lemma bias_callbacks_filter_witness :
  let w := rpi_cirrus_probe_world (@nil Z) in
  let other := mk_dapm wm8804_codec_dev SND_SOC_BIAS_STANDBY in
  dev other <> wm5102_codec_dev /\
  rpi_cirrus_set_bias_level scripted_codec other SND_SOC_BIAS_PREPARE w = (0, w) /\
  rpi_cirrus_set_bias_level_post scripted_codec other SND_SOC_BIAS_STANDBY w = (0, w).
Proof.
  cbv zeta.
  assert (Hd : dev (mk_dapm wm8804_codec_dev SND_SOC_BIAS_STANDBY) <> wm5102_codec_dev)
    by discriminate.
  split; [exact Hd |].
  split.
  - exact (proj1 (bias_callbacks_filter scripted_codec (rpi_cirrus_probe_world [])
                    (mk_dapm wm8804_codec_dev SND_SOC_BIAS_STANDBY)
                    SND_SOC_BIAS_PREPARE) (or_introl Hd)).
  - exact (proj1 (proj2 (bias_callbacks_filter scripted_codec
                           (rpi_cirrus_probe_world [])
                           (mk_dapm wm8804_codec_dev SND_SOC_BIAS_STANDBY)
                           SND_SOC_BIAS_STANDBY)) (or_introl Hd)).
Defined.

Lemma rpi_cirrus_hw_params_error_witness :
  let w := rpi_cirrus_probe_world [0; - EIO] in
  let res := rpi_cirrus_hw_params scripted_codec SNDRV_PCM_STREAM_PLAYBACK
               (mk_hw_params 16 44100) w in
  fst res <> 0 /\
  fst res = - EIO /\
  priv (snd res) = priv w.
Proof.
  cbv zeta.
  assert (Hret : fst (rpi_cirrus_hw_params scripted_codec SNDRV_PCM_STREAM_PLAYBACK
                        (mk_hw_params 16 44100)
                        (rpi_cirrus_probe_world [0; - EIO])) <> 0)
    by (vm_compute; discriminate).
  split; [exact Hret |]. split; [reflexivity |].
  exact (proj1 (proj2 (proj2
           (rpi_cirrus_hw_params_error scripted_codec
              (rpi_cirrus_probe_world [0; - EIO]) SNDRV_PCM_STREAM_PLAYBACK
              (mk_hw_params 16 44100) Hret)))).
Defined.

(** The "Lock" flag, bit 6 of the S/PDIF status register, inverted, read
    while that bit is set. *)
Lemma rpi_cirrus_spdif_status_flag_get_spec_witness :
  let x := rpi_cirrus_probe_card [64] in
  (0 <= 6 < 31 /\ 0 <= WM8804_SPDSTAT sample_headers < 256 /\ 0 <= 1 < 256) /\
  fst (rpi_cirrus_spdif_status_flag_get scripted_card_codec
         (SPDIF_FLAG_CTRL 6 (WM8804_SPDSTAT sample_headers) 1) x) = 0.
Proof.
  cbv zeta.
  assert (Hb : 0 <= 6 < 31) by lia.
  assert (Hr : 0 <= WM8804_SPDSTAT sample_headers < 256)
    by (vm_compute; split; [discriminate | reflexivity]).
  assert (Hi : 0 <= 1 < 256) by lia.
  split; [auto |].
  destruct (rpi_cirrus_spdif_status_flag_get_spec scripted_card_codec
              (rpi_cirrus_probe_card [64]) 6 (WM8804_SPDSTAT sample_headers) 1
              Hb Hr Hi) as [_ [Hret _]].
  rewrite Hret. reflexivity.
Defined.

(** Writing 0xff to byte 3 of an all-zero cache stores 0x3f and updates one
    register; the bytes read back are the masked ones; writing again
    changes nothing. *)
Lemma rpi_cirrus_spdif_playback_put_changed_witness :
  let x := rpi_cirrus_probe_card [7; - EIO; 9; 3] in
  let res := rpi_cirrus_spdif_playback_put scripted_card_codec sample_headers
               [1; 0; 2; 255] x in
  length (iec958_status (priv (clk x))) = 4%nat /\
  fst res = 1 /\
  performed x (snd res) =
    [(snd_soc_component_update_bits wm8804_component 18 255 1, 7);
     (snd_soc_component_update_bits wm8804_component 20 255 2, - EIO);
     (snd_soc_component_update_bits wm8804_component 21 63 63, 9)] /\
  codec (clk (snd res)) = [3].
Proof.
  cbv zeta.
  destruct (rpi_cirrus_spdif_playback_put_changed scripted_card_codec sample_headers
              (rpi_cirrus_probe_card [7; - EIO; 9; 3]) [1; 0; 2; 255] eq_refl)
    as [_ [Hret [Hops [Hcodec _]]]].
  split; [reflexivity |].
  split; [| split; [exact Hops | exact Hcodec]].
  apply (proj2 Hret). exists 3. split; [lia | vm_compute; discriminate].
Defined.

Lemma rpi_cirrus_spdif_playback_put_get_witness :
  let x := rpi_cirrus_probe_card (@nil Z) in
  let x' := snd (rpi_cirrus_spdif_playback_put scripted_card_codec sample_headers
                   [1; 2; 3; 255] x) in
  iec958_status (priv (clk x)) =
    map (fun i => Z.land (array_get (iec958_status (priv (clk x))) i) (iec958_mask i))
        [0; 1; 2; 3] /\
  fst (rpi_cirrus_spdif_playback_get x') = [1; 2; 3; 63].
Proof.
  cbv zeta. split; [reflexivity |].
  rewrite (rpi_cirrus_spdif_playback_put_get scripted_card_codec sample_headers
             (rpi_cirrus_probe_card []) [1; 2; 3; 255] eq_refl).
  reflexivity.
Defined.

Lemma rpi_cirrus_spdif_playback_put_twice_witness :
  let x := rpi_cirrus_probe_card (@nil Z) in
  let x' := snd (rpi_cirrus_spdif_playback_put scripted_card_codec sample_headers
                   [1; 2; 3; 255] x) in
  length (iec958_status (priv (clk x))) = 4%nat /\
  rpi_cirrus_spdif_playback_put scripted_card_codec sample_headers
    [1; 2; 3; 255] x' = (0, x').
Proof.
  cbv zeta. split; [reflexivity |].
  exact (rpi_cirrus_spdif_playback_put_twice scripted_card_codec sample_headers
           (rpi_cirrus_probe_card []) [1; 2; 3; 255] eq_refl).
Defined.

(** The CLKOUT call fails with [-EIO] and the PLL calls succeed:
    [rpi_cirrus_init_wm8804] returns 0. *)
Lemma rpi_cirrus_init_wm8804_status_witness :
  let x := rpi_cirrus_probe_card [4; 0; 0; 255; 0; - EIO; 0; -16; 9] in
  let res := rpi_cirrus_init_wm8804 scripted_card_codec sample_headers x in
  let x' := rpi_cirrus_probe_card [4; 0; 0; 255; 0; 0; -22; 9] in
  let res' := rpi_cirrus_init_wm8804 scripted_card_codec sample_headers x' in
  (performed x (snd res) =
     [(snd_soc_component_read wm8804_component 18, 4);
      (snd_soc_component_read wm8804_component 19, 0);
      (snd_soc_component_read wm8804_component 20, 0);
      (snd_soc_component_read wm8804_component 21, 255);
      (snd_soc_dai_set_clkdiv wm8804_dai 1 1, 0);
      (clock_call (snd_soc_dai_set_sysclk wm8804_dai WM8804_CLKOUT_SRC_OSCCLK
                     12000000 0), - EIO);
      (clock_call (snd_soc_dai_set_pll wm8804_dai 0 0 12000000 11289600), 0);
      (clock_call (snd_soc_dai_set_sysclk wm8804_dai WM8804_TX_CLKSRC_PLL
                     11289600 0), -16)] /\
   fst res = -16 /\
   codec (clk (snd res)) = [9]) /\
  (performed x' (snd res') =
     [(snd_soc_component_read wm8804_component 18, 4);
      (snd_soc_component_read wm8804_component 19, 0);
      (snd_soc_component_read wm8804_component 20, 0);
      (snd_soc_component_read wm8804_component 21, 255);
      (snd_soc_dai_set_clkdiv wm8804_dai 1 1, 0);
      (clock_call (snd_soc_dai_set_sysclk wm8804_dai WM8804_CLKOUT_SRC_OSCCLK
                     12000000 0), 0);
      (clock_call (snd_soc_dai_set_pll wm8804_dai 0 0 12000000 11289600), -22)] /\
   fst res' = -22 /\
   codec (clk (snd res')) = [9]).
Proof.
  cbv zeta. split.
  - exact (rpi_cirrus_init_wm8804_status scripted_card_codec sample_headers
             (rpi_cirrus_probe_card [4; 0; 0; 255; 0; - EIO; 0; -16; 9])).
  - exact (rpi_cirrus_init_wm8804_status scripted_card_codec sample_headers
             (rpi_cirrus_probe_card [4; 0; 0; 255; 0; 0; -22; 9])).
Defined.

Lemma rpi_cirrus_spdif_capture_get_masked_witness :
  let x := rpi_cirrus_probe_card [-16; 511; 4; 255; 9] in
  let res := rpi_cirrus_spdif_capture_get scripted_card_codec sample_headers x in
  performed x (snd res) =
    [(snd_soc_component_read wm8804_component 13, -16);
     (snd_soc_component_read wm8804_component 14, 511);
     (snd_soc_component_read wm8804_component 15, 4);
     (snd_soc_component_read wm8804_component 16, 255)] /\
  fst res = [240; 255; 4; 63] /\
  codec (clk (snd res)) = [9].
Proof.
  cbv zeta.
  destruct (rpi_cirrus_spdif_capture_get_masked scripted_card_codec sample_headers
              (rpi_cirrus_probe_card [-16; 511; 4; 255; 9]))
    as [Hops [Hret [_ [Hcodec _]]]].
  split; [exact Hops | split; [exact Hret | exact Hcodec]].
Defined.

Lemma rpi_cirrus_init_wm5102_spec_witness :
  let x := rpi_cirrus_probe_card [3; - EIO; -22; -16; 9] in
  let res := rpi_cirrus_init_wm5102 scripted_card_codec sample_headers x in
  let x' := rpi_cirrus_probe_card [3; - EIO; -22; 0; 9] in
  let res' := rpi_cirrus_init_wm5102 scripted_card_codec sample_headers x' in
  (performed x (snd res) =
     [(snd_soc_component_update_bits wm5102_component 256 3 2, 3);
      (clock_call fll1_off, - EIO);
      (clock_call fll1_refclk_off, -22);
      (clock_call (snd_soc_component_set_sysclk ARIZONA_CLK_SRC_FLL1 0), -16)] /\
   fst res = -16 /\
   codec (clk (snd res)) = [9]) /\
  (performed x' (snd res') =
     [(snd_soc_component_update_bits wm5102_component 256 3 2, 3);
      (clock_call fll1_off, - EIO);
      (clock_call fll1_refclk_off, -22);
      (clock_call (snd_soc_component_set_sysclk ARIZONA_CLK_SRC_FLL1 0), 0)] /\
   fst res' = 0 /\
   codec (clk (snd res')) = [9]).
Proof.
  cbv zeta. split.
  - destruct (rpi_cirrus_init_wm5102_spec scripted_card_codec sample_headers
                (rpi_cirrus_probe_card [3; - EIO; -22; -16; 9]))
      as [Hops [_ [Hret [Hcodec _]]]].
    split; [exact Hops | split; [exact Hret | exact Hcodec]].
  - destruct (rpi_cirrus_init_wm5102_spec scripted_card_codec sample_headers
                (rpi_cirrus_probe_card [3; - EIO; -22; 0; 9]))
      as [Hops [_ [Hret [Hcodec _]]]].
    split; [exact Hops | split; [exact Hret | exact Hcodec]].
Defined.

Lemma iec958_status_within_masks_witness :
  let x := rpi_cirrus_probe_card [4; 0; 0; 255] in
  let x0 := snd (rpi_cirrus_init_wm8804 scripted_card_codec sample_headers x) in
  length (iec958_status (priv (clk x))) = 4%nat /\
  iec958_status (priv (clk x0)) = [4; 0; 0; 63].
Proof.
  cbv zeta. split; [reflexivity |].
  destruct (iec958_status_within_masks scripted_card_codec sample_headers
              (rpi_cirrus_probe_card [4; 0; 0; 255]) []) as [Hinit _].
  destruct (Hinit eq_refl) as [_ [Hcache _]].
  rewrite Hcache. reflexivity.
Defined.
